(** * Casey Legal MCP server: the tool dispatcher of [src/index.js]

    A shallow embedding of [CaseyLegalMCPServer]: the tool registry answered
    to [ListToolsRequestSchema], the [CallToolRequestSchema] dispatcher with
    its [try]/[catch], and the five handlers with the text they format.

    JavaScript values are modelled as far as a JSON request can supply them;
    what the handlers take from the JavaScript engine and from the MCP SDK
    without its being fixed by the language (the parsing of date strings,
    the wording of error messages) is a parameter of the development,
    gathered in [Runtime].  The wall clock is an argument of every call. *)

From Stdlib Require Import ZArith Ascii String.
From stdpp Require Import base option list gmap strings pretty.

Open Scope string_scope.
Open Scope Z_scope.

Local Arguments String.append !_ _ / : simpl nomatch.

(** ** Results of code that may throw *)

Inductive Result (E A : Type) : Type :=
| Ok (a : A)
| Err (e : E).
Arguments Ok {E A} a.
Arguments Err {E A} e.

#[global] Instance result_ret {E} : MRet (Result E) := λ A a, Ok a.
#[global] Instance result_bind {E} : MBind (Result E) :=
  λ A B f m, match m with Ok a => f a | Err e => Err e end.

Definition is_ok {E A} (r : Result E A) : bool :=
  match r with Ok _ => true | Err _ => false end.

(** ** Values *)

(** The values a handler can meet: a request's [arguments] come from JSON,
    and a property that is absent reads as [undefined].  [JNum n] is the
    number of integral value [n], of magnitude below 2^53, which prints in
    plain decimal; strings are those of the 8-bit characters. *)
#[warnings="-register-all"]
Inductive JSValue : Type :=
| JUndefined
| JNull
| JBool (b : bool)
| JNum (n : Z)
| JStr (s : string)
| JArr (items : list JSValue)
| JObj (fields : list (string * JSValue)).

(** The line feed written [\n] in the source. *)
Definition nl : string := String (ascii_of_nat 10) "".

(** ** Errors *)

(** The places where the handlers can raise a [TypeError]. *)
Inductive TypeErrorSite : Type :=
| DestructureUndefined                  (* const { ... } = undefined *)
| ReadPropertyOfUndefined (prop : string) (* undefined.prop *)
| NotAFunction (expr : string)          (* expr(...) where expr is not callable *)
| ObjectToPrimitive.                    (* no callable toString/valueOf gives a primitive *)

(** [ErrorCode] of the SDK, the two members the server uses. *)
Inductive ErrorCode : Type :=
| MethodNotFound
| InternalError.

(** An [McpError] as the host sees it: its [code] and its [message]. *)
Record McpError : Type := { code : ErrorCode; message : string }.

Inductive JsError : Type :=
| TypeError (site : TypeErrorSite)
| ThrownMcp (e : McpError).

#[global] Instance ErrorCode_eq_dec : EqDecision ErrorCode.
Proof. solve_decision. Defined.

(** What the server takes from Node and from the SDK. *)
Record Runtime : Type := {
  (** [Date.parse]: the time value in milliseconds, [None] for [NaN]. *)
  date_parse : string → option Z;
  (** The message the [McpError] constructor builds from code and text. *)
  mcp_error_message : ErrorCode → string → string;
  (** The message of a [TypeError] raised by the engine. *)
  type_error_message : TypeErrorSite → string
}.

(** ** Conversions of the language *)

Definition own_key (k : string) (fields : list (string * JSValue)) : bool :=
  bool_decide (k ∈ fields.*1).

(** [ToString], as a template literal applies it.  An array joins its
    elements with a comma, [null] and [undefined] elements giving the empty
    string.  A JSON object inherits [Object.prototype.toString] unless it
    has an own [toString] key, whose value is never callable: then no
    primitive is found and a [TypeError] is raised. *)
Fixpoint ToString (v : JSValue) : Result JsError string :=
  match v with
  | JUndefined => Ok "undefined"
  | JNull => Ok "null"
  | JBool b => Ok (if b then "true" else "false")
  | JNum n => Ok (pretty n)
  | JStr s => Ok s
  | JArr items =>
      strs ← (fix elems (l : list JSValue) : Result JsError (list string) :=
                match l with
                | [] => Ok []
                | x :: l' =>
                    s ← match x with
                        | JUndefined | JNull => Ok ""
                        | _ => ToString x
                        end;
                    ss ← elems l';
                    Ok (s :: ss)
                end) items;
      Ok (String.concat "," strs)
  | JObj fields =>
      if own_key "toString" fields then Err (TypeError ObjectToPrimitive)
      else Ok "[object Object]"
  end.

(** The string an array element contributes to [Array.prototype.join]. *)
Definition element_string (x : JSValue) : Result JsError string :=
  match x with
  | JUndefined | JNull => Ok ""
  | _ => ToString x
  end.

Fixpoint element_strings (l : list JSValue) : Result JsError (list string) :=
  match l with
  | [] => Ok []
  | x :: l' => s ← element_string x; ss ← element_strings l'; Ok (s :: ss)
  end.

(** [items.join(sep)] *)
Definition array_join (sep : string) (items : list JSValue) : Result JsError string :=
  strs ← element_strings items; Ok (String.concat sep strs).

(** [ToBoolean] *)
Definition truthy (v : JSValue) : bool :=
  match v with
  | JUndefined | JNull => false
  | JBool b => b
  | JNum n => negb (n =? 0)
  | JStr s => negb (bool_decide (s = ""))
  | JArr _ | JObj _ => true
  end.

(** [v || d] *)
Definition or_else (v d : JSValue) : JSValue := if truthy v then v else d.

(** ** Objects built by the handlers *)

(** The own property [key] of an object literal written as a table. *)
Fixpoint own_property {A} (key : string) (table : list (string * A)) : option A :=
  match table with
  | [] => None
  | (k, v) :: table' => if bool_decide (k = key) then Some v else own_property key table'
  end.

(** [o.k] for a key that [Object.prototype] does not define. *)
Definition get (o : gmap string JSValue) (k : string) : JSValue :=
  default JUndefined (o !! k).

(** [{ ...base, ...args }]: the spread of [undefined] adds nothing, the
    spread of an object overrides the keys written before it. *)
Definition spread (args : option (gmap string JSValue)) (base : gmap string JSValue)
  : gmap string JSValue :=
  match args with
  | Some a => a ∪ base
  | None => base
  end.

(** ** The clock *)

(** The readings of the wall clock, in milliseconds, that one call takes
    with [Date.now()] and [new Date()], numbered in evaluation order. *)
Definition Clock : Type := nat → Z.

(** [TimeClip] on an integral number. *)
Definition time_clip (n : Z) : option Z :=
  if bool_decide (Z.abs n ≤ 8640000000000000) then Some n else None.

Definition ms_per_day : Z := 1000 * 60 * 60 * 24.

(** [Math.ceil(ms / ms_per_day)] for an integral [ms]. *)
Definition ceil_days (ms : Z) : Z := - ((- ms) `div` ms_per_day).

(** [Date.prototype.toISOString] of a valid time value: the civil date of
    the day number, then the time of day, in UTC. *)
Definition pad (width : nat) (n : Z) : string :=
  let digits := pretty n in
  String.concat "" (replicate (width - String.length digits) "0") +:+ digits.

Definition civil_from_days (day : Z) : Z * Z * Z :=
  let z := day + 719468 in
  let era := z `div` 146097 in
  let doe := z - era * 146097 in
  let yoe := (doe - doe `div` 1460 + doe `div` 36524 - doe `div` 146096) `div` 365 in
  let doy := doe - (365 * yoe + yoe `div` 4 - yoe `div` 100) in
  let mp := (5 * doy + 2) `div` 153 in
  let d := doy - (153 * mp + 2) `div` 5 + 1 in
  let m := if bool_decide (mp < 10) then mp + 3 else mp - 9 in
  let y := yoe + era * 400 + (if bool_decide (m ≤ 2) then 1 else 0) in
  (y, m, d).

Definition toISOString (t : Z) : string :=
  let '(y, m, d) := civil_from_days (t `div` ms_per_day) in
  let ms := t `mod` ms_per_day in
  let year :=
    if bool_decide (0 ≤ y ≤ 9999) then pad 4 y
    else (if bool_decide (y < 0) then "-" else "+") +:+ pad 6 (Z.abs y) in
  year +:+ "-" +:+ pad 2 m +:+ "-" +:+ pad 2 d +:+ "T" +:+
  pad 2 (ms `div` 3600000) +:+ ":" +:+ pad 2 ((ms `div` 60000) `mod` 60) +:+ ":" +:+
  pad 2 ((ms `div` 1000) `mod` 60) +:+ "." +:+ pad 3 (ms `mod` 1000) +:+ "Z".

(** ** The result of a tool call *)

Record TextContent : Type := { type : string; text : string }.
Record CallToolResult : Type := { content : list TextContent }.

Definition text_result (t : string) : CallToolResult :=
  {| content := [ {| type := "text"; text := t |} ] |}.

(** The text of a result's only content item. *)
Definition result_text (r : CallToolResult) : string :=
  match content r with
  | c :: _ => text c
  | [] => ""
  end.

(** ** The tool registry *)

(** One entry of [properties] in an input schema. *)
Record PropertySchema : Type := {
  p_type : string;
  p_enum : option (list string);
  p_items : option string;
  p_default : option string;
  p_description : string
}.

Record InputSchema : Type := {
  s_type : string;
  properties : list (string * PropertySchema);
  required : list string
}.

Record Tool : Type := {
  name : string;
  description : string;
  inputSchema : InputSchema
}.

Definition string_property (d : string) : PropertySchema :=
  {| p_type := "string"; p_enum := None; p_items := None; p_default := None;
     p_description := d |}.

Definition enum_property (values : list string) (d : string) : PropertySchema :=
  {| p_type := "string"; p_enum := Some values; p_items := None; p_default := None;
     p_description := d |}.

(** The answer to [ListToolsRequestSchema]: [tools], in the order written. *)
Definition listTools : list Tool :=
  [ {| name := "analyze_legal_case";
       description := "Analyze Case 1FDV-23-0001009 for judicial bias and civil rights violations";
       inputSchema :=
         {| s_type := "object";
            properties :=
              [ ("case_id",
                  {| p_type := "string"; p_enum := None; p_items := None;
                     p_default := Some "1FDV-23-0001009";
                     p_description := "Federal case identifier" |});
                ("analysis_type",
                  enum_property
                    [ "bias_detection"; "timeline_analysis"; "precedent_research";
                      "civil_rights_review" ]
                    "Type of legal analysis to perform");
                ("focus_area",
                  enum_property
                    [ "child_welfare"; "parental_rights"; "due_process"; "judicial_conduct" ]
                    "Specific area to focus analysis on") ];
            required := [ "analysis_type" ] |} |};
    {| name := "track_evidence";
       description := "Track and organize evidence for Case 1FDV-23-0001009";
       inputSchema :=
         {| s_type := "object";
            properties :=
              [ ("evidence_type",
                  enum_property
                    [ "document"; "audio_recording"; "photo"; "witness_statement";
                      "court_transcript" ]
                    "Type of evidence to track");
                ("description", string_property "Description of the evidence");
                ("date_collected",
                  string_property "Date evidence was collected (ISO format)");
                ("relevance",
                  enum_property [ "critical"; "high"; "medium"; "low" ]
                    "Relevance level to the case") ];
            required := [ "evidence_type"; "description" ] |} |};
    {| name := "monitor_deadlines";
       description := "Monitor court deadlines and important dates for Case 1FDV-23-0001009";
       inputSchema :=
         {| s_type := "object";
            properties :=
              [ ("deadline_type",
                  enum_property
                    [ "filing_deadline"; "hearing_date"; "discovery_deadline";
                      "appeal_deadline" ]
                    "Type of legal deadline");
                ("date", string_property "Deadline date (ISO format)");
                ("description", string_property "Description of what is due");
                ("priority",
                  enum_property [ "critical"; "high"; "normal" ]
                    "Priority level of the deadline") ];
            required := [ "deadline_type"; "date"; "description" ] |} |};
    {| name := "document_judicial_bias";
       description := "Document instances of judicial bias in Case 1FDV-23-0001009";
       inputSchema :=
         {| s_type := "object";
            properties :=
              [ ("incident_date", string_property "Date of bias incident (ISO format)");
                ("bias_type",
                  enum_property
                    [ "gender_bias"; "procedural_bias"; "evidence_suppression";
                      "due_process_violation" ]
                    "Type of bias observed");
                ("description",
                  string_property "Detailed description of the bias incident");
                ("impact",
                  enum_property [ "severe"; "moderate"; "minor" ]
                    "Impact on case and child welfare");
                ("witnesses",
                  {| p_type := "array"; p_enum := None; p_items := Some "string";
                     p_default := None;
                     p_description := "Names of witnesses to the bias" |}) ];
            required := [ "incident_date"; "bias_type"; "description" ] |} |};
    {| name := "child_welfare_assessment";
       description := "Assess Kekoa's welfare and document concerns";
       inputSchema :=
         {| s_type := "object";
            properties :=
              [ ("assessment_date", string_property "Date of welfare assessment");
                ("concern_type",
                  enum_property
                    [ "neglect"; "emotional_harm"; "educational_disruption";
                      "medical_neglect" ]
                    "Type of welfare concern");
                ("severity",
                  enum_property [ "critical"; "high"; "moderate"; "minor" ]
                    "Severity of the concern");
                ("evidence", string_property "Evidence supporting the welfare concern");
                ("recommended_action",
                  string_property "Recommended action to address the concern") ];
            required := [ "assessment_date"; "concern_type"; "severity" ] |} |} ].

(** The descriptors of [listTools] that carry a given name. *)
Definition descriptors_named (n : string) : list Tool :=
  filter (λ t, name t = n) listTools.

(** The optional fields of a descriptor: its properties outside [required]. *)
Definition optional_fields (t : Tool) : list string :=
  filter (λ k, k ∉ required (inputSchema t)) (properties (inputSchema t)).*1.

(** ** The server *)

Section Server.

Context (rt : Runtime).

(** [error.message] as the [catch] block reads it. *)
Definition error_message (e : JsError) : string :=
  match e with
  | TypeError site => type_error_message rt site
  | ThrownMcp m => message m
  end.

(** [new McpError(code, text)] *)
Definition newMcpError (c : ErrorCode) (txt : string) : McpError :=
  {| code := c; message := mcp_error_message rt c txt |}.

(** [this.caseId] *)
Definition caseId : string := "1FDV-23-0001009".

(** [new Date(v)]: the time value of the date, [None] for an invalid date.
    A string is parsed; an array or an object is first turned into its
    string; every other value is turned into a number. *)
Definition date_of (v : JSValue) : Result JsError (option Z) :=
  match v with
  | JUndefined => Ok None
  | JNull => Ok (Some 0)
  | JBool b => Ok (Some (if b then 1 else 0))
  | JNum n => Ok (time_clip n)
  | JStr s => Ok (date_parse rt s)
  | JArr _ | JObj _ => s ← ToString v; Ok (date_parse rt s)
  end.

(** *** generateAnalysisFindings, generateRecommendations, generateNextSteps *)

(** The [findings] table, in the order it is written. *)
Definition findings : list (string * list string) :=
  [ ("bias_detection",
      [ "Multiple instances of procedural bias identified";
        "Pattern of discriminatory treatment documented";
        "Due process violations found in court proceedings" ]);
    ("timeline_analysis",
      [ "Critical timeline gaps identified in case progression";
        "Delay tactics used to Casey's disadvantage";
        "Child's best interests not prioritized in scheduling" ]);
    ("precedent_research",
      [ "Similar cases show pattern of judicial overreach";
        "Federal civil rights precedents support Casey's position";
        "Child welfare standards not being properly applied" ]);
    ("civil_rights_review",
      [ "Constitutional violations present in case handling";
        "Equal protection under law compromised";
        "Parental rights unlawfully restricted" ]) ].

(** The keys every object literal inherits from [Object.prototype]. *)
Definition object_prototype_keys : list string :=
  [ "constructor"; "hasOwnProperty"; "isPrototypeOf"; "propertyIsEnumerable";
    "toLocaleString"; "toString"; "valueOf"; "__proto__";
    "__defineGetter__"; "__defineSetter__"; "__lookupGetter__"; "__lookupSetter__" ].

(** What [findings[type] || [...]] evaluates to: one of the arrays, or a
    member inherited from [Object.prototype], which is truthy and is not an
    array. *)
Inductive Findings : Type :=
| FindingsArray (items : list string)
| FindingsInherited.

Definition generateAnalysisFindings (type focus : JSValue) : Result JsError Findings :=
  key ← ToString type;
  Ok (match own_property key findings with
      | Some items => FindingsArray items
      | None =>
          if bool_decide (key ∈ object_prototype_keys) then FindingsInherited
          else FindingsArray [ "Analysis completed - detailed findings available" ]
      end).

Definition generateRecommendations (type focus : JSValue) : list string :=
  [ "File motion for judicial recusal based on documented bias";
    "Request emergency hearing for child welfare concerns";
    "Gather additional evidence of procedural violations";
    "Consider federal civil rights lawsuit if state remedies fail" ].

Definition generateNextSteps (type focus : JSValue) : list string :=
  [ "Prepare comprehensive bias documentation package";
    "Schedule emergency consultation with civil rights attorney";
    "Document all future interactions with court system";
    "Prioritize Kekoa's immediate safety and well-being" ].

(** [analysis.findings.join('\n')] *)
Definition join_findings (f : Findings) : Result JsError string :=
  match f with
  | FindingsArray items => Ok (String.concat nl items)
  | FindingsInherited => Err (TypeError (NotAFunction "analysis.findings.join"))
  end.

(** *** analyzeLegalCase *)

(** The [analysis] object of [analyzeLegalCase]. *)
Record Analysis : Type := {
  a_case_id : JSValue;
  a_analysis_type : JSValue;
  a_focus_area : JSValue;
  a_timestamp : string;
  a_findings : Findings;
  a_recommendations : list string;
  a_next_steps : list string
}.

Definition analysis_of (clk : Clock) (a : gmap string JSValue) : Result JsError Analysis :=
  let case_id := match a !! "case_id" with
                 | None | Some JUndefined => JStr caseId
                 | Some v => v
                 end in
  let analysis_type := get a "analysis_type" in
  let focus_area := get a "focus_area" in
  fs ← generateAnalysisFindings analysis_type focus_area;
  Ok {| a_case_id := case_id;
        a_analysis_type := analysis_type;
        a_focus_area := focus_area;
        a_timestamp := toISOString (clk 0%nat);
        a_findings := fs;
        a_recommendations := generateRecommendations analysis_type focus_area;
        a_next_steps := generateNextSteps analysis_type focus_area |}.

(** The text of the result, from the strings put in its holes. *)
Definition analysis_template
    (case_id analysis_type focus_area findings recommendations next_steps : string)
  : string :=
  ("Legal Case Analysis Complete for " +:+ case_id +:+ nl +:+ nl) +:+
  ("Analysis Type: " +:+ analysis_type +:+ nl) +:+
  ("Focus Area: " +:+ focus_area +:+ nl +:+ nl) +:+
  ("Key Findings:" +:+ nl +:+ findings +:+ nl +:+ nl) +:+
  ("Recommendations:" +:+ nl +:+ recommendations +:+ nl +:+ nl) +:+
  ("Next Steps:" +:+ nl +:+ next_steps).

Definition analysis_text (an : Analysis) : Result JsError string :=
  case_id ← ToString (a_case_id an);
  analysis_type ← ToString (a_analysis_type an);
  focus_area ← ToString (or_else (a_focus_area an) (JStr "General"));
  key_findings ← join_findings (a_findings an);
  Ok (analysis_template case_id analysis_type focus_area key_findings
        (String.concat nl (a_recommendations an))
        (String.concat nl (a_next_steps an))).

Definition analyzeLegalCase (clk : Clock) (args : option (gmap string JSValue))
  : Result JsError CallToolResult :=
  match args with
  | None => Err (TypeError DestructureUndefined)
  | Some a =>
      an ← analysis_of clk a;
      t ← analysis_text an;
      Ok (text_result t)
  end.

(** *** trackEvidence *)

(** The [evidence] object. *)
Definition evidence_of (clk : Clock) (args : option (gmap string JSValue))
  : gmap string JSValue :=
  <["chain_of_custody" :=
      JArr [ JStr ("Created by Casey Legal MCP Server at " +:+ toISOString (clk 2%nat)) ]]>
  (<["timestamp" := JStr (toISOString (clk 1%nat))]>
  (spread args
  (<["case_id" := JStr caseId]>
  (<["id" := JStr ("evidence_" +:+ pretty (clk 0%nat))]> ∅)))).

Definition evidence_template
    (id evidence_type description relevance date_collected : string) : string :=
  ("Evidence Tracked Successfully" +:+ nl +:+ nl) +:+
  ("Evidence ID: " +:+ id +:+ nl) +:+
  ("Type: " +:+ evidence_type +:+ nl) +:+
  ("Description: " +:+ description +:+ nl) +:+
  ("Relevance: " +:+ relevance +:+ nl) +:+
  ("Date Collected: " +:+ date_collected +:+ nl +:+ nl) +:+
  ("This evidence has been added to the Case " +:+ caseId +:+ " evidence database.").

Definition evidence_text (evidence : gmap string JSValue) : Result JsError string :=
  id ← ToString (get evidence "id");
  evidence_type ← ToString (get evidence "evidence_type");
  description ← ToString (get evidence "description");
  relevance ← ToString (or_else (get evidence "relevance") (JStr "Not specified"));
  date_collected ← ToString (or_else (get evidence "date_collected") (JStr "Not specified"));
  Ok (evidence_template id evidence_type description relevance date_collected).

Definition trackEvidence (clk : Clock) (args : option (gmap string JSValue))
  : Result JsError CallToolResult :=
  t ← evidence_text (evidence_of clk args);
  Ok (text_result t).

(** *** monitorDeadlines *)

(** The [deadline] object. *)
Definition deadline_of (clk : Clock) (args : option (gmap string JSValue))
  : gmap string JSValue :=
  <["status" := JStr "active"]>
  (<["created" := JStr (toISOString (clk 1%nat))]>
  (spread args
  (<["case_id" := JStr caseId]>
  (<["id" := JStr ("deadline_" +:+ pretty (clk 0%nat))]> ∅)))).

(** [Math.ceil((new Date(args.date) - new Date()) / (1000 * 60 * 60 * 24))]:
    [None] is [NaN], what the difference with an invalid date is.  A time
    value is an integer of magnitude at most 8.64e15; for a clock reading
    between 1970 and the year 13000 the difference stays below 2^53 and is
    exact, and its quotient by the 86400000 ms of a day, rounded to a double,
    has the same ceiling as the exact quotient. *)
Definition daysUntil_of (date : option Z) (now : Z) : option Z :=
  t ← date; Some (ceil_days (t - now)).

(** [daysUntil <= 7 ? 'URGENT' : daysUntil <= 30 ? 'IMPORTANT' : 'SCHEDULED'];
    a comparison with [NaN] is false. *)
Definition urgencyLevel_of (daysUntil : option Z) : string :=
  match daysUntil with
  | Some d =>
      if bool_decide (d ≤ 7) then "URGENT"
      else if bool_decide (d ≤ 30) then "IMPORTANT"
      else "SCHEDULED"
  | None => "SCHEDULED"
  end.

(** [`${daysUntil}`] *)
Definition number_string (n : option Z) : string :=
  match n with
  | Some d => pretty d
  | None => "NaN"
  end.

Definition deadline_template
    (id deadline_type date daysUntil urgencyLevel priority description : string)
  : string :=
  ("Deadline Monitoring Activated" +:+ nl +:+ nl) +:+
  ("Deadline ID: " +:+ id +:+ nl) +:+
  ("Type: " +:+ deadline_type +:+ nl) +:+
  ("Date: " +:+ date +:+ nl) +:+
  ("Days Until: " +:+ daysUntil +:+ nl) +:+
  ("Urgency: " +:+ urgencyLevel +:+ nl) +:+
  ("Priority: " +:+ priority +:+ nl) +:+
  ("Description: " +:+ description +:+ nl +:+ nl) +:+
  "Automatic alerts will be sent for this deadline. Fighting for Kekoa's future!".

Definition deadline_text (deadline : gmap string JSValue) (daysUntil : option Z)
    (urgencyLevel : string) : Result JsError string :=
  id ← ToString (get deadline "id");
  deadline_type ← ToString (get deadline "deadline_type");
  date ← ToString (get deadline "date");
  priority ← ToString (get deadline "priority");
  description ← ToString (get deadline "description");
  Ok (deadline_template id deadline_type date (number_string daysUntil) urgencyLevel
        priority description).

Definition monitorDeadlines (clk : Clock) (args : option (gmap string JSValue))
  : Result JsError CallToolResult :=
  let deadline := deadline_of clk args in
  match args with
  | None => Err (TypeError (ReadPropertyOfUndefined "date"))
  | Some a =>
      date ← date_of (get a "date");
      let daysUntil := daysUntil_of date (clk 2%nat) in
      let urgencyLevel := urgencyLevel_of daysUntil in
      t ← deadline_text deadline daysUntil urgencyLevel;
      Ok (text_result t)
  end.

(** *** documentJudicialBias *)

(** The [incident] object. *)
Definition incident_of (clk : Clock) (args : option (gmap string JSValue))
  : gmap string JSValue :=
  <["status" := JStr "documented"]>
  (<["documented" := JStr (toISOString (clk 1%nat))]>
  (spread args
  (<["case_id" := JStr caseId]>
  (<["id" := JStr ("bias_incident_" +:+ pretty (clk 0%nat))]> ∅)))).

(** [incident.witnesses?.join(', ') || 'None specified']: the optional
    chain stops on [undefined] and [null] only; on an array [join] is
    called, and on any other value [join] is not a function. *)
Definition witnesses_text (witnesses : JSValue) : Result JsError string :=
  match witnesses with
  | JUndefined | JNull => Ok "None specified"
  | JArr items =>
      joined ← array_join ", " items;
      Ok (if bool_decide (joined = "") then "None specified" else joined)
  | JBool _ | JNum _ | JStr _ | JObj _ =>
      Err (TypeError (NotAFunction "incident.witnesses?.join"))
  end.

Definition incident_template
    (id incident_date bias_type impact description witnesses : string) : string :=
  ("Judicial Bias Incident Documented" +:+ nl +:+ nl) +:+
  ("Incident ID: " +:+ id +:+ nl) +:+
  ("Date: " +:+ incident_date +:+ nl) +:+
  ("Type: " +:+ bias_type +:+ nl) +:+
  ("Impact: " +:+ impact +:+ nl) +:+
  ("Description: " +:+ description +:+ nl) +:+
  ("Witnesses: " +:+ witnesses +:+ nl +:+ nl) +:+
  ("This incident has been added to the judicial bias documentation for Case "
     +:+ caseId +:+ ". ") +:+
  "Justice for Kekoa - every instance of bias is documented and will be used to protect his future.".

Definition incident_text (incident : gmap string JSValue) : Result JsError string :=
  id ← ToString (get incident "id");
  incident_date ← ToString (get incident "incident_date");
  bias_type ← ToString (get incident "bias_type");
  impact ← ToString (get incident "impact");
  description ← ToString (get incident "description");
  witnesses ← witnesses_text (get incident "witnesses");
  Ok (incident_template id incident_date bias_type impact description witnesses).

Definition documentJudicialBias (clk : Clock) (args : option (gmap string JSValue))
  : Result JsError CallToolResult :=
  t ← incident_text (incident_of clk args);
  Ok (text_result t).

(** *** assessChildWelfare *)

(** The [assessment] object. *)
Definition assessment_of (clk : Clock) (args : option (gmap string JSValue))
  : gmap string JSValue :=
  <["timestamp" := JStr (toISOString (clk 1%nat))]>
  (<["assessed_by" := JStr "Casey Legal MCP Server"]>
  (spread args
  (<["child" := JStr "Kekoa"]>
  (<["case_id" := JStr caseId]>
  (<["id" := JStr ("welfare_" +:+ pretty (clk 0%nat))]> ∅))))).

Definition assessment_template
    (id assessment_date concern_type severity evidence recommended_action : string)
  : string :=
  ("Child Welfare Assessment Completed" +:+ nl +:+ nl) +:+
  ("Assessment ID: " +:+ id +:+ nl) +:+
  ("Child: Kekoa" +:+ nl) +:+
  ("Date: " +:+ assessment_date +:+ nl) +:+
  ("Concern Type: " +:+ concern_type +:+ nl) +:+
  ("Severity: " +:+ severity +:+ nl) +:+
  ("Evidence: " +:+ evidence +:+ nl) +:+
  ("Recommended Action: " +:+ recommended_action +:+ nl +:+ nl) +:+
  "Kekoa's welfare is our top priority. This assessment will be used to ensure his safety and well-being.".

Definition assessment_text (assessment : gmap string JSValue) : Result JsError string :=
  id ← ToString (get assessment "id");
  assessment_date ← ToString (get assessment "assessment_date");
  concern_type ← ToString (get assessment "concern_type");
  severity ← ToString (get assessment "severity");
  evidence ← ToString (or_else (get assessment "evidence") (JStr "To be gathered"));
  recommended_action ←
    ToString (or_else (get assessment "recommended_action") (JStr "Under review"));
  Ok (assessment_template id assessment_date concern_type severity evidence
        recommended_action).

Definition assessChildWelfare (clk : Clock) (args : option (gmap string JSValue))
  : Result JsError CallToolResult :=
  t ← assessment_text (assessment_of clk args);
  Ok (text_result t).

(** *** The CallToolRequestSchema handler *)

(** The [switch] inside the [try]. *)
Definition dispatch (clk : Clock) (name : string) (args : option (gmap string JSValue))
  : Result JsError CallToolResult :=
  if bool_decide (name = "analyze_legal_case") then analyzeLegalCase clk args
  else if bool_decide (name = "track_evidence") then trackEvidence clk args
  else if bool_decide (name = "monitor_deadlines") then monitorDeadlines clk args
  else if bool_decide (name = "document_judicial_bias") then documentJudicialBias clk args
  else if bool_decide (name = "child_welfare_assessment") then assessChildWelfare clk args
  else Err (ThrownMcp (newMcpError MethodNotFound ("Unknown tool: " +:+ name))).

(** The [catch] block: whatever the [try] threw is thrown again as an
    internal error. *)
Definition callTool (clk : Clock) (name : string) (args : option (gmap string JSValue))
  : Result McpError CallToolResult :=
  match dispatch clk name args with
  | Ok r => Ok r
  | Err error =>
      Err (newMcpError InternalError
             ("Error executing " +:+ name +:+ ": " +:+ error_message error))
  end.

End Server.

(** ** A runtime to evaluate the server on *)

(** The messages of Node's engine. *)
Definition v8_type_error_message (site : TypeErrorSite) : string :=
  match site with
  | DestructureUndefined =>
      "Cannot destructure property 'case_id' of 'args' as it is undefined."
  | ReadPropertyOfUndefined prop =>
      "Cannot read properties of undefined (reading '" +:+ prop +:+ "')"
  | NotAFunction expr => expr +:+ " is not a function"
  | ObjectToPrimitive => "Cannot convert object to primitive value"
  end.

(** The message the SDK's [McpError] builds. *)
Definition sdk_error_message (c : ErrorCode) (txt : string) : string :=
  "MCP error " +:+
  match c with MethodNotFound => "-32601" | InternalError => "-32603" end +:+
  ": " +:+ txt.

(** [Date.parse] on a few calendar dates of January 1970; the other
    strings used with this runtime are not dates. *)
Definition sample_dates : list (string * Z) :=
  [ ("1970-01-01", 0);
    ("1970-01-08", 7 * ms_per_day);
    ("1970-01-09", 8 * ms_per_day);
    ("1970-01-31", 30 * ms_per_day);
    ("1970-02-01", 31 * ms_per_day) ].

Definition sample_runtime : Runtime :=
  {| date_parse := λ s, own_property s sample_dates;
     mcp_error_message := sdk_error_message;
     type_error_message := v8_type_error_message |}.

(** ** Reading a formatted text *)

(** The lines of a text: what stands between its line feeds. *)
Fixpoint lines (s : string) : list string :=
  match s with
  | EmptyString => [ "" ]
  | String c s' =>
      if bool_decide (c = ascii_of_nat 10) then "" :: lines s'
      else match lines s' with
           | l :: ls => String c l :: ls
           | [] => [ String c "" ]
           end
  end.

(** [has_line l t]: [l] is one of the lines of [t]. *)
Definition has_line (l t : string) : Prop := l ∈ lines t.

#[global] Instance has_line_dec l t : Decision (has_line l t).
Proof. unfold has_line. apply _. Defined.

(** [one_line s]: no line feed occurs in [s]. *)
Fixpoint one_line (s : string) : bool :=
  match s with
  | EmptyString => true
  | String c s' => negb (bool_decide (c = ascii_of_nat 10)) && one_line s'
  end.

(** [is_substring s t]: [s] occurs in [t] verbatim. *)
Definition is_substring (s t : string) : Prop :=
  ∃ pre post, t = pre +:+ s +:+ post.

(** [ends_with tail t] *)
Definition ends_with (tail t : string) : Prop := ∃ head, t = head +:+ tail.

(** A value that a template literal can print. *)
Definition printable (v : JSValue) : bool := is_ok (ToString v).

(** Every argument of the mapping can be printed. *)
Definition printable_args (a : gmap string JSValue) : Prop :=
  map_Forall (λ _ v, printable v = true) a.

(** ** Vocabulary of the claims *)

(** The arguments of a request can all be printed; a request without
    arguments has none. *)
Definition printable_request (args : option (gmap string JSValue)) : Prop :=
  match args with
  | Some a => printable_args a
  | None => True
  end.

(** [args.k] where [args] may be missing: what the spread contributes. *)
Definition arg (args : option (gmap string JSValue)) (k : string) : option JSValue :=
  a ← args; a !! k.

(** What the [catch] block makes of the outcome of the [try]. *)
Definition wrap_error (rt : Runtime) (name : string)
    (r : Result JsError CallToolResult) : Result McpError CallToolResult :=
  match r with
  | Ok res => Ok res
  | Err error =>
      Err (newMcpError rt InternalError
             ("Error executing " +:+ name +:+ ": " +:+ error_message rt error))
  end.

Definition error_code_of {A} (r : Result McpError A) : option ErrorCode :=
  match r with
  | Ok _ => None
  | Err m => Some (code m)
  end.

(** The five operations, in registry order. *)
Definition operation_names : list string :=
  [ "analyze_legal_case"; "track_evidence"; "monitor_deadlines";
    "document_judicial_bias"; "child_welfare_assessment" ].

(** The required fields of an operation according to the table of section 6
    of the specification. *)
Definition spec_required_fields (tool : string) : list string :=
  if bool_decide (tool = "analyze_legal_case") then [ "analysis_type" ]
  else if bool_decide (tool = "track_evidence") then [ "evidence_type"; "description" ]
  else if bool_decide (tool = "monitor_deadlines") then
    [ "deadline_type"; "date"; "description" ]
  else if bool_decide (tool = "document_judicial_bias") then [ "bias_type"; "description" ]
  else if bool_decide (tool = "child_welfare_assessment") then
    [ "assessment_date"; "concern_type"; "severity" ]
  else [].

(** The required-field set of a descriptor. *)
Definition required_set (t : Tool) : gset string :=
  list_to_set (required (inputSchema t)).

(** The arguments of the evidence example of the specification. *)
Definition court_filing : gmap string JSValue :=
  <["evidence_type" := JStr "document"]> (<["description" := JStr "court filing"]> ∅).

(** The arguments of the welfare example of the specification. *)
Definition neglect_assessment : gmap string JSValue :=
  <["assessment_date" := JStr "2024-01-01"]>
  (<["concern_type" := JStr "neglect"]>
  (<["severity" := JStr "critical"]> ∅)).

(** A deadline request with its three required fields and no priority. *)
Definition filing_deadline (date : string) : gmap string JSValue :=
  <["deadline_type" := JStr "filing_deadline"]>
  (<["date" := JStr date]>
  (<["description" := JStr "Motion to recuse"]> ∅)).

(** A bias report with its three required fields, no impact, and the
    witnesses given. *)
Definition bias_report (witnesses : option JSValue) : gmap string JSValue :=
  <["incident_date" := JStr "2024-01-01"]>
  (<["bias_type" := JStr "procedural_bias"]>
  (<["description" := JStr "Hearing cut short"]>
  (match witnesses with Some w => {[ "witnesses" := w ]} | None => ∅ end))).

(** The value of a [witnesses] argument that lists the given names. *)
Definition names_value (names : list string) : JSValue := JArr (JStr <$> names).

(** [strip_prefix p s]: what follows [p] in [s], when [s] starts with [p]. *)
Fixpoint strip_prefix (p s : string) : option string :=
  match p with
  | EmptyString => Some s
  | String c p' =>
      match s with
      | String c' s' => if Ascii.eqb c c' then strip_prefix p' s' else None
      | EmptyString => None
      end
  end.

(** The labels that introduce the id in the four texts that print one. *)
Definition id_labels : list string :=
  [ "Evidence ID: "; "Deadline ID: "; "Incident ID: "; "Assessment ID: " ].

(** The id that a line prints, when it is an id line. *)
Definition line_id (l : string) : option string :=
  head (omap (λ label, strip_prefix label l) id_labels).

(** The id a text prints: that of its first id line. *)
Definition id_of_text (t : string) : option string :=
  head (omap line_id (lines t)).

(** The lines of a text apart from its id lines. *)
Definition without_id (t : string) : list string :=
  filter (λ l, line_id l = None) (lines t).

(** A template that prints its id on a line of its own. *)
Definition prints_id (template : string → string) : Prop :=
  ∀ id, one_line id = true →
        id_of_text (template id) = Some id ∧
        without_id (template id) = without_id (template "").

(** The day count a deadline request computes, [None] when it is [NaN] or
    when the handler raises before computing it. *)
Definition day_count (rt : Runtime) (clk : Clock) (args : option (gmap string JSValue))
  : option Z :=
  a ← args;
  match date_of rt (get a "date") with
  | Ok date => daysUntil_of date (clk 2%nat)
  | Err _ => None
  end.

(** Two outcomes of one handler, run on the same arguments with two clocks:
    the same error, or two texts that fill their templates with the id the
    arguments give, or else with the id generated from each clock. *)
Definition two_calls (prefix : string) (clk1 clk2 : Clock)
    (args : option (gmap string JSValue)) (template1 template2 : string → string)
    (h1 h2 : Result JsError CallToolResult) : Prop :=
  (∃ e, h1 = Err e ∧ h2 = Err e) ∨
  (∃ id1 id2,
     h1 = Ok (text_result (template1 id1)) ∧
     h2 = Ok (text_result (template2 id2)) ∧
     match arg args "id" with
     | Some _ => id1 = id2
     | None => id1 = prefix +:+ pretty (clk1 0%nat) ∧ id2 = prefix +:+ pretty (clk2 0%nat)
     end).

(** Two calls follow each other: no clock reading of the second is earlier
    than a reading of the first. *)
Definition successive (clk1 clk2 : Clock) : Prop := ∀ i j, clk1 i ≤ clk2 j.

(** The clock that reads [t] every time. *)
Definition at_time (t : Z) : Clock := λ _, t.

(** C6 as the specification states it: on every operation and every
    argument mapping, two successive calls that return print different ids
    and, apart from the id, the same text. *)
Definition C6_as_stated (rt : Runtime) : Prop :=
  ∀ tool args clk1 clk2 r1 r2,
    tool ∈ operation_names → successive clk1 clk2 →
    callTool rt clk1 tool args = Ok r1 → callTool rt clk2 tool args = Ok r2 →
    id_of_text (result_text r1) ≠ id_of_text (result_text r2) ∧
    without_id (result_text r1) = without_id (result_text r2).

(** ** Vocabulary of the further properties *)

(** How deep the arrays of a value are nested. *)
Fixpoint depth (v : JSValue) : nat :=
  match v with
  | JArr items => S (max_list (depth <$> items))
  | _ => 0
  end.

(** [args.k], [undefined] when the key or the arguments are missing. *)
Definition field (args : option (gmap string JSValue)) (k : string) : JSValue :=
  default JUndefined (arg args k).

(** What a fallback [v || d] prints. *)
Definition shown_or (v : JSValue) (d : string) : Result JsError string :=
  if truthy v then ToString v else Ok d.

(** The keys a descriptor declares, and [id]. *)
Definition declared_fields (tool : string) : list string :=
  "id" :: (t ← descriptors_named tool; (properties (inputSchema t)).*1).

(** The values [analysis_type] may take according to its descriptor. *)
Definition analysis_types : list string :=
  t ← descriptors_named "analyze_legal_case";
  p ← properties (inputSchema t);
  if bool_decide (p.1 = "analysis_type") then default [] (p_enum p.2) else [].

(** The required fields that a handler prints, each with the label that
    introduces it in the text. *)
Definition required_labels : list (string * string * string) :=
  [ ("track_evidence", "evidence_type", "Type: ");
    ("track_evidence", "description", "Description: ");
    ("monitor_deadlines", "deadline_type", "Type: ");
    ("monitor_deadlines", "date", "Date: ");
    ("monitor_deadlines", "description", "Description: ");
    ("document_judicial_bias", "incident_date", "Date: ");
    ("document_judicial_bias", "bias_type", "Type: ");
    ("document_judicial_bias", "description", "Description: ");
    ("child_welfare_assessment", "assessment_date", "Date: ");
    ("child_welfare_assessment", "concern_type", "Concern Type: ");
    ("child_welfare_assessment", "severity", "Severity: ") ].

(** The optional fields that a handler prints with a fallback, each with
    the label that introduces it and the text of the fallback. *)
Definition fallbacks : list (string * string * string * string) :=
  [ ("analyze_legal_case", "focus_area", "Focus Area: ", "General");
    ("track_evidence", "relevance", "Relevance: ", "Not specified");
    ("track_evidence", "date_collected", "Date Collected: ", "Not specified");
    ("child_welfare_assessment", "evidence", "Evidence: ", "To be gathered");
    ("child_welfare_assessment", "recommended_action", "Recommended Action: ",
      "Under review") ].

(** The values that [||] replaces by its right operand. *)
Definition falsy_values : list JSValue :=
  [ JUndefined; JNull; JBool false; JNum 0; JStr "" ].

(** The message the generic findings consist of. *)
Definition generic_finding : string :=
  "Analysis completed - detailed findings available".


(** The enumerations of a descriptor, one for each property that has one. *)
Definition enumerations (t : Tool) : list (list string) :=
  omap (λ p, p_enum p.2) (properties (inputSchema t)).

(** A descriptor is well formed: its required fields are declared, no
    property is declared twice, and an enumeration lists at least one
    value, none twice. *)
Definition well_formed_schema (t : Tool) : Prop :=
  s_type (inputSchema t) = "object" ∧
  required (inputSchema t) ⊆ (properties (inputSchema t)).*1 ∧
  NoDup (properties (inputSchema t)).*1 ∧
  NoDup (required (inputSchema t)) ∧
  Forall (λ values, values ≠ [] ∧ NoDup values) (enumerations t).

#[global] Instance well_formed_schema_dec t : Decision (well_formed_schema t).
Proof. unfold well_formed_schema. apply _. Defined.

(** ** Strings *)

Lemma string_app_assoc (a b c : string) : (a +:+ b) +:+ c = a +:+ (b +:+ c).
Proof. induction a as [|x a IH]; simpl; [done|]. by rewrite IH. Qed.

Lemma string_app_nil_r (a : string) : a +:+ "" = a.
Proof. induction a as [|x a IH]; simpl; [done|]. by rewrite IH. Qed.

Lemma lines_nonempty s : lines s ≠ [].
Proof.
  destruct s as [|c s]; simpl; [done|].
  case_bool_decide; [done|]. by destruct (lines s).
Qed.

Lemma lines_app_nl a b : lines (a +:+ nl +:+ b) = (lines a ++ lines b)%list.
Proof.
  induction a as [|c a IH]; cbn [String.append lines].
  - unfold nl. cbn [String.append lines]. by rewrite bool_decide_eq_true_2.
  - rewrite IH. case_bool_decide; [done|].
    destruct (lines a) as [|l ls] eqn:E; [by apply lines_nonempty in E|done].
Qed.

Lemma lines_one_line s : one_line s = true → lines s = [ s ].
Proof.
  induction s as [|c s IH]; simpl; [done|].
  case_bool_decide; simpl; [done|]. intros Hs. by rewrite (IH Hs).
Qed.

(** The first line of a text is a prefix of it. *)
Lemma lines_head_prefix t l ls : lines t = l :: ls → ∃ post, t = l +:+ post.
Proof.
  revert l ls. induction t as [|c t IH]; simpl; intros l ls E.
  - simplify_eq. by exists "".
  - case_bool_decide.
    + injection E as <- <-. by exists (String c t).
    + destruct (lines t) as [|l0 ls0] eqn:E0; [by apply lines_nonempty in E0|].
      injection E as <- <-. destruct (IH l0 ls0 eq_refl) as [post ->]. by exists post.
Qed.

Lemma has_line_substring l t : has_line l t → is_substring l t.
Proof.
  unfold has_line, is_substring. revert l.
  induction t as [|c t IH]; simpl; intros l Hl.
  - apply list_elem_of_singleton in Hl as ->. by exists "", "".
  - case_bool_decide as Hc.
    + apply elem_of_cons in Hl as [->|Hl].
      * by exists "", (String c t).
      * destruct (IH l Hl) as (pre & post & ->). by exists (String c pre), post.
    + destruct (lines t) as [|l0 ls] eqn:E; [by apply lines_nonempty in E|].
      apply elem_of_cons in Hl as [->|Hl].
      * destruct (lines_head_prefix t l0 ls E) as [post ->]. by exists "", post.
      * destruct (IH l) as (pre & post & ->); [by right|].
        by exists (String c pre), post.
Qed.

Lemma concat_cons_cons sep x y l :
  String.concat sep (x :: y :: l) = x +:+ sep +:+ String.concat sep (y :: l).
Proof. reflexivity. Qed.

(** A one-line member of a list of pieces joined by line feeds is a line. *)
Lemma has_line_concat l pieces :
  l ∈ pieces → one_line l = true → has_line l (String.concat nl pieces).
Proof.
  intros Hin Hl. unfold has_line.
  induction pieces as [|x [|y rest] IH].
  - by apply elem_of_nil in Hin.
  - apply list_elem_of_singleton in Hin as ->. cbn [String.concat].
    rewrite (lines_one_line _ Hl). by left.
  - rewrite concat_cons_cons, lines_app_nl. apply elem_of_app.
    apply elem_of_cons in Hin as [->|Hin].
    + left. rewrite (lines_one_line _ Hl). by left.
    + right. by apply IH.
Qed.

(** Brings both sides of an equation between texts to the same shape. *)
Ltac string_norm :=
  unfold nl; rewrite ?string_app_assoc; cbn [String.append String.concat];
  rewrite ?string_app_nil_r.

(** ** The result monad *)

Lemma bind_Ok_inv {E A B} (m : Result E A) (f : A → Result E B) b :
  m ≫= f = Ok b → ∃ a, m = Ok a ∧ f a = Ok b.
Proof. destruct m as [a|e]; simpl; [eauto|done]. Qed.

Lemma bind_Err_inv {E A B} (m : Result E A) (f : A → Result E B) e :
  m ≫= f = Err e → m = Err e ∨ ∃ a, m = Ok a ∧ f a = Err e.
Proof. destruct m as [a|e']; simpl; [eauto|]. intros [= ->]. by left. Qed.

Lemma is_ok_true {E A} (r : Result E A) : is_ok r = true → ∃ a, r = Ok a.
Proof. destruct r; [eauto|done]. Qed.

(** Splits the hypotheses [x ← m; k = Ok r] of the context. *)
Ltac inv_bind :=
  repeat match goal with
    | H : _ ≫= _ = Ok _ |- _ =>
        let a := fresh "s" in
        let Ha := fresh "E" in
        apply bind_Ok_inv in H as (a & Ha & H)
    | H : Ok _ = Ok _ |- _ => injection H as H
    end.

(** ** Conversions *)

Lemma ToString_JArr items : ToString (JArr items) = array_join "," items.
Proof. reflexivity. Qed.

Lemma printable_ok v : printable v = true → ∃ s, ToString v = Ok s.
Proof. apply is_ok_true. Qed.

Lemma printable_or_else v d :
  printable v = true → printable (or_else v (JStr d)) = true.
Proof. unfold or_else. by destruct (truthy v). Qed.

Lemma printable_get a k : printable_args a → printable (get a k) = true.
Proof.
  intros Ha. unfold get. destruct (a !! k) as [v|] eqn:E; [|done].
  exact (Ha k v E).
Qed.

Lemma printable_args_insert k v o :
  printable v = true → printable_args o → printable_args (<[k := v]> o).
Proof. intros. by apply map_Forall_insert_2. Qed.

Lemma printable_args_empty : printable_args ∅.
Proof. apply map_Forall_empty. Qed.

Lemma printable_args_spread args base :
  printable_request args → printable_args base → printable_args (spread args base).
Proof.
  destruct args as [a|]; simpl; [|done]. intros Ha Hb.
  by apply map_Forall_union_2.
Qed.

(** ** Reading the objects the handlers build *)

Lemma get_insert_eq k v (o : gmap string JSValue) : get (<[k := v]> o) k = v.
Proof. unfold get. by rewrite lookup_insert_eq. Qed.

Lemma get_insert_ne k k' v (o : gmap string JSValue) :
  k ≠ k' → get (<[k := v]> o) k' = get o k'.
Proof. intros. unfold get. by rewrite lookup_insert_ne. Qed.

Lemma get_spread args base k :
  get (spread args base) k = default (get base k) (arg args k).
Proof.
  unfold get, spread, arg. destruct args as [a|]; simpl; [|done].
  rewrite lookup_union. by destruct (a !! k), (base !! k).
Qed.

Lemma get_empty k : get ∅ k = JUndefined.
Proof. unfold get. by rewrite lookup_empty. Qed.

(** ** The texts, line by line *)

Lemma evidence_template_lines id evidence_type description relevance date_collected :
  evidence_template id evidence_type description relevance date_collected =
  String.concat nl
    [ "Evidence Tracked Successfully"; "";
      "Evidence ID: " +:+ id;
      "Type: " +:+ evidence_type;
      "Description: " +:+ description;
      "Relevance: " +:+ relevance;
      "Date Collected: " +:+ date_collected; "";
      "This evidence has been added to the Case 1FDV-23-0001009 evidence database." ].
Proof. unfold evidence_template, caseId. by string_norm. Qed.

Lemma deadline_template_lines id deadline_type date daysUntil urgencyLevel priority
    description :
  deadline_template id deadline_type date daysUntil urgencyLevel priority description =
  String.concat nl
    [ "Deadline Monitoring Activated"; "";
      "Deadline ID: " +:+ id;
      "Type: " +:+ deadline_type;
      "Date: " +:+ date;
      "Days Until: " +:+ daysUntil;
      "Urgency: " +:+ urgencyLevel;
      "Priority: " +:+ priority;
      "Description: " +:+ description; "";
      "Automatic alerts will be sent for this deadline. Fighting for Kekoa's future!" ].
Proof. unfold deadline_template. by string_norm. Qed.

Lemma incident_template_lines id incident_date bias_type impact description witnesses :
  incident_template id incident_date bias_type impact description witnesses =
  String.concat nl
    [ "Judicial Bias Incident Documented"; "";
      "Incident ID: " +:+ id;
      "Date: " +:+ incident_date;
      "Type: " +:+ bias_type;
      "Impact: " +:+ impact;
      "Description: " +:+ description;
      "Witnesses: " +:+ witnesses; "";
      "This incident has been added to the judicial bias documentation for Case 1FDV-23-0001009. Justice for Kekoa - every instance of bias is documented and will be used to protect his future." ].
Proof. unfold incident_template, caseId. by string_norm. Qed.

Lemma assessment_template_lines id assessment_date concern_type severity evidence
    recommended_action :
  assessment_template id assessment_date concern_type severity evidence
    recommended_action =
  String.concat nl
    [ "Child Welfare Assessment Completed"; "";
      "Assessment ID: " +:+ id;
      "Child: Kekoa";
      "Date: " +:+ assessment_date;
      "Concern Type: " +:+ concern_type;
      "Severity: " +:+ severity;
      "Evidence: " +:+ evidence;
      "Recommended Action: " +:+ recommended_action; "";
      "Kekoa's welfare is our top priority. This assessment will be used to ensure his safety and well-being." ].
Proof. unfold assessment_template. by string_norm. Qed.

(** Reads a property of an object built by a handler: the keys written
    after the spread win, then the arguments, then the keys written before. *)
Ltac get_object :=
  repeat first
    [ rewrite get_insert_eq
    | rewrite get_insert_ne by done
    | rewrite get_spread
    | rewrite get_empty ].

(** Evaluates the lookups in a literal argument mapping. *)
Ltac eval_args :=
  repeat match goal with
    | |- context [arg (Some ?m) ?k] =>
        let v := eval vm_compute in (arg (Some m) k) in
        change (arg (Some m) k) with v
    | |- context [arg None ?k] => change (arg None k) with (@None JSValue)
    end;
  cbn [from_option id].

(** Decides a closed proposition by evaluation. *)
Ltac decide_closed := apply (bool_decide_unpack _); vm_compute; exact I.

(** Shows a line of a text given by its pieces. *)
Ltac find_line :=
  apply has_line_concat; [ set_solver | reflexivity ].

(** ** The dispatcher *)

Section Dispatch.

Context (rt : Runtime) (clk : Clock) (args : option (gmap string JSValue)).

Lemma callTool_wrap tool :
  callTool rt clk tool args = wrap_error rt tool (dispatch rt clk tool args).
Proof. reflexivity. Qed.

Lemma dispatch_analyze_legal_case :
  dispatch rt clk "analyze_legal_case" args = analyzeLegalCase clk args.
Proof. reflexivity. Qed.

Lemma dispatch_track_evidence :
  dispatch rt clk "track_evidence" args = trackEvidence clk args.
Proof. reflexivity. Qed.

Lemma dispatch_monitor_deadlines :
  dispatch rt clk "monitor_deadlines" args = monitorDeadlines rt clk args.
Proof. reflexivity. Qed.

Lemma dispatch_document_judicial_bias :
  dispatch rt clk "document_judicial_bias" args = documentJudicialBias clk args.
Proof. reflexivity. Qed.

Lemma dispatch_child_welfare_assessment :
  dispatch rt clk "child_welfare_assessment" args = assessChildWelfare clk args.
Proof. reflexivity. Qed.

(** A name outside the registry reaches the [default] branch. *)
Lemma dispatch_unknown tool :
  tool ∉ name <$> listTools →
  dispatch rt clk tool args =
  Err (ThrownMcp (newMcpError rt MethodNotFound ("Unknown tool: " +:+ tool))).
Proof.
  intros Hn. unfold dispatch.
  repeat (case_bool_decide as Heq;
          [exfalso; apply Hn; rewrite Heq; by apply (bool_decide_unpack _)|clear Heq]).
  done.
Qed.

End Dispatch.

(** ** When the handlers return *)

Lemma ToString_get_ok o k : printable_args o → ∃ s, ToString (get o k) = Ok s.
Proof. intros Ho. apply printable_ok. by apply printable_get. Qed.

Lemma ToString_get_or_ok o k d :
  printable_args o → ∃ s, ToString (or_else (get o k) (JStr d)) = Ok s.
Proof. intros Ho. apply printable_ok, printable_or_else. by apply printable_get. Qed.

(** Replaces the conversions of printable properties by their strings. *)
Ltac convert_fields Ho :=
  repeat match goal with
    | |- context [ToString (or_else (get ?o ?k) (JStr ?d))] =>
        let s := fresh "s" in
        let E := fresh "E" in
        destruct (ToString_get_or_ok o k d Ho) as [s E]; rewrite E; clear E
    | |- context [ToString (get ?o ?k)] =>
        let s := fresh "s" in
        let E := fresh "E" in
        destruct (ToString_get_ok o k Ho) as [s E]; rewrite E; clear E
    end;
  cbn [mbind result_bind].

Section Objects.

Context (clk : Clock) (args : option (gmap string JSValue)).
Hypothesis Hargs : printable_request args.

Lemma printable_evidence_of : printable_args (evidence_of clk args).
Proof.
  unfold evidence_of.
  repeat (apply printable_args_insert; [done|]).
  apply printable_args_spread; [done|].
  repeat (apply printable_args_insert; [done|]). apply printable_args_empty.
Qed.

Lemma printable_deadline_of : printable_args (deadline_of clk args).
Proof.
  unfold deadline_of.
  repeat (apply printable_args_insert; [done|]).
  apply printable_args_spread; [done|].
  repeat (apply printable_args_insert; [done|]). apply printable_args_empty.
Qed.

Lemma printable_incident_of : printable_args (incident_of clk args).
Proof.
  unfold incident_of.
  repeat (apply printable_args_insert; [done|]).
  apply printable_args_spread; [done|].
  repeat (apply printable_args_insert; [done|]). apply printable_args_empty.
Qed.

Lemma printable_assessment_of : printable_args (assessment_of clk args).
Proof.
  unfold assessment_of.
  repeat (apply printable_args_insert; [done|]).
  apply printable_args_spread; [done|].
  repeat (apply printable_args_insert; [done|]). apply printable_args_empty.
Qed.

End Objects.

Lemma evidence_text_ok o : printable_args o → is_ok (evidence_text o) = true.
Proof. intros Ho. unfold evidence_text. by convert_fields Ho. Qed.

Lemma assessment_text_ok o : printable_args o → is_ok (assessment_text o) = true.
Proof. intros Ho. unfold assessment_text. by convert_fields Ho. Qed.

Lemma incident_text_ok o :
  printable_args o → is_ok (witnesses_text (get o "witnesses")) = true →
  is_ok (incident_text o) = true.
Proof.
  intros Ho Hw. unfold incident_text. convert_fields Ho.
  by destruct (witnesses_text _).
Qed.

Lemma is_ok_text_result {E} (r : Result E string) :
  is_ok (t ← r; Ok (text_result t)) = is_ok r.
Proof. by destruct r. Qed.

Lemma is_ok_wrap_error rt tool r : is_ok (wrap_error rt tool r) = is_ok r.
Proof. by destruct r. Qed.

(** The text of a handler's result, when there is one. *)
Lemma text_result_inv {E} (r : Result E string) res :
  (t ← r; Ok (text_result t)) = Ok res →
  r = Ok (result_text res) ∧ res = text_result (result_text res).
Proof. destruct r as [t|e]; simpl; [|done]. by intros [= <-]. Qed.

Lemma wrap_error_Ok_inv rt tool r res : wrap_error rt tool r = Ok res → r = Ok res.
Proof. destruct r; simpl; [|done]. by intros [= ->]. Qed.

(** Evidence tracking and welfare assessment return whenever their
    arguments can be printed, and also without arguments. *)
Lemma trackEvidence_returns clk args :
  printable_request args → is_ok (trackEvidence clk args) = true.
Proof.
  intros Ha. unfold trackEvidence. rewrite is_ok_text_result.
  by apply evidence_text_ok, printable_evidence_of.
Qed.

Lemma assessChildWelfare_returns clk args :
  printable_request args → is_ok (assessChildWelfare clk args) = true.
Proof.
  intros Ha. unfold assessChildWelfare. rewrite is_ok_text_result.
  by apply assessment_text_ok, printable_assessment_of.
Qed.

(** ** The claims *)

(** C1 (code defect).  The unknown-operation error never reaches the host:
    the [McpError] with code [MethodNotFound] is thrown inside the [try],
    caught by the [catch] of the same handler, and thrown again as an
    [InternalError] whose message embeds the message of the first. *)
Theorem C1_unknown_tool_becomes_internal_error rt clk args :
  dispatch rt clk "nonexistent_tool" args =
    Err (ThrownMcp (newMcpError rt MethodNotFound "Unknown tool: nonexistent_tool")) ∧
  callTool rt clk "nonexistent_tool" args =
    Err (newMcpError rt InternalError
           ("Error executing nonexistent_tool: " +:+
            mcp_error_message rt MethodNotFound "Unknown tool: nonexistent_tool")) ∧
  error_code_of (callTool rt clk "nonexistent_tool" args) = Some InternalError.
Proof. by repeat split. Qed.

(** Every name outside the registry meets the same fate. *)
Lemma callTool_unknown rt clk args tool :
  tool ∉ name <$> listTools →
  callTool rt clk tool args =
  Err (newMcpError rt InternalError
         ("Error executing " +:+ tool +:+ ": " +:+
          mcp_error_message rt MethodNotFound ("Unknown tool: " +:+ tool))).
Proof. intros Hn. by rewrite callTool_wrap, dispatch_unknown. Qed.

(** C2, as stated, fails on the bias-documentation descriptor: its required
    set holds [incident_date], which the table of section 6 calls optional. *)
Lemma C2_counterexample :
  ∃ t, descriptors_named "document_judicial_bias" = [ t ] ∧
       "incident_date" ∈ required_set t ∧
       required_set t ≠ list_to_set (spec_required_fields "document_judicial_bias").
Proof.
  eexists. split; [reflexivity|].
  match goal with |- ?P ∧ _ => assert P as Hin end.
  { unfold required_set. cbn. set_solver. }
  split; [exact Hin|]. intros Heq. rewrite Heq in Hin.
  cbn in Hin. set_solver.
Qed.

(** C2 (amended).  [listTools] holds exactly one descriptor for each of the
    five operation names and no other; the required set of each is that of
    the table of section 6, except for bias documentation, whose required
    set is [incident_date], [bias_type] and [description]. *)
Theorem C2_list_tools_required_fields tool :
  tool ∈ operation_names →
  name <$> listTools = operation_names ∧
  ∃ t, descriptors_named tool = [ t ] ∧ name t = tool ∧
       required_set t =
         if bool_decide (tool = "document_judicial_bias")
         then {[ "incident_date"; "bias_type"; "description" ]}
         else list_to_set (spec_required_fields tool).
Proof.
  intros Hin. split; [reflexivity|].
  unfold operation_names in Hin.
  repeat (apply elem_of_cons in Hin as [->|Hin]);
    [..|by apply elem_of_nil in Hin];
    (eexists; split; [reflexivity|]; split; [reflexivity|]);
    unfold required_set; cbn; set_solver.
Qed.

(** The amended C2 on the bias-documentation descriptor. *)
Lemma C2_list_tools_required_fields_witness :
  "document_judicial_bias" ∈ operation_names ∧
  ∃ t, descriptors_named "document_judicial_bias" = [ t ] ∧
       required_set t = {[ "incident_date"; "bias_type"; "description" ]}.
Proof.
  assert ("document_judicial_bias" ∈ operation_names) as Hin
    by decide_closed.
  split; [exact Hin|].
  destruct (C2_list_tools_required_fields _ Hin) as (_ & t & Ht & _ & Hr).
  by exists t.
Defined.

(** Runs a handler on a literal argument mapping. *)
Ltac run_handler :=
  rewrite ?callTool_wrap,
    ?dispatch_track_evidence, ?dispatch_monitor_deadlines,
    ?dispatch_document_judicial_bias, ?dispatch_child_welfare_assessment;
  unfold trackEvidence, evidence_text, evidence_of,
    monitorDeadlines, deadline_text, deadline_of,
    documentJudicialBias, incident_text, incident_of,
    assessChildWelfare, assessment_text, assessment_of;
  get_object; eval_args;
  cbn [or_else truthy ToString mbind result_bind wrap_error date_of witnesses_text
       bool_decide negb].

(** C3 (code defect).  Two optional fields have no fallback: without
    [priority] the deadline text reads [Priority: undefined], and without
    [impact] the bias text reads [Impact: undefined], where the other
    optional fields of the server print a default. *)
Theorem C3_priority_and_impact_print_undefined rt clk date :
  (∃ t, callTool rt clk "monitor_deadlines" (Some (filing_deadline date)) =
          Ok (text_result t) ∧
        has_line "Priority: undefined" t) ∧
  (∃ t, callTool rt clk "document_judicial_bias" (Some (bias_report None)) =
          Ok (text_result t) ∧
        has_line "Impact: undefined" t) ∧
  optional_fields <$> descriptors_named "monitor_deadlines" = [ [ "priority" ] ] ∧
  optional_fields <$> descriptors_named "document_judicial_bias" =
    [ [ "impact"; "witnesses" ] ].
Proof.
  split; [|split; [|split]].
  - unfold filing_deadline. run_handler.
    eexists. split; [reflexivity|].
    rewrite deadline_template_lines. find_line.
  - unfold bias_report. run_handler.
    eexists. split; [reflexivity|].
    rewrite incident_template_lines. find_line.
  - reflexivity.
  - reflexivity.
Qed.

(** C7.  Evidence tracked with a type and a description only is accepted,
    and its text reads [Relevance: Not specified] and
    [Date Collected: Not specified]. *)
Theorem C7_evidence_defaults rt clk :
  ∃ t, callTool rt clk "track_evidence" (Some court_filing) = Ok (text_result t) ∧
       has_line "Relevance: Not specified" t ∧
       has_line "Date Collected: Not specified" t.
Proof.
  unfold court_filing. run_handler.
  eexists. split; [reflexivity|].
  rewrite evidence_template_lines. split; find_line.
Qed.

(** C8.  The welfare assessment of the specification's example is accepted,
    and its text holds the child's name, the concern type and the severity
    as they were given, each on the line of its label. *)
Theorem C8_welfare_assessment_text rt clk :
  ∃ t, callTool rt clk "child_welfare_assessment" (Some neglect_assessment) =
         Ok (text_result t) ∧
       (has_line "Child: Kekoa" t ∧
        has_line "Concern Type: neglect" t ∧
        has_line "Severity: critical" t) ∧
       (is_substring "Kekoa" t ∧ is_substring "neglect" t ∧ is_substring "critical" t).
Proof.
  unfold neglect_assessment. run_handler.
  eexists. split; [reflexivity|].
  rewrite assessment_template_lines.
  assert (∀ a b t, has_line (a +:+ b) t → is_substring b t) as Hsub.
  { intros a b t Hl. apply has_line_substring in Hl as (pre & post & ->).
    exists (pre +:+ a), post. by rewrite !string_app_assoc. }
  repeat split; try find_line.
  - apply (Hsub "Child: "). find_line.
  - apply (Hsub "Concern Type: "). find_line.
  - apply (Hsub "Severity: "). find_line.
Qed.

(** The optional fields that do have a fallback: the focus area of an
    analysis, the evidence and the recommended action of an assessment
    (the relevance and the collection date of evidence are in C7, the
    witnesses of a bias report in C10). *)
Lemma optional_fields_with_fallback rt clk :
  (∃ t, callTool rt clk "analyze_legal_case"
          (Some {[ "analysis_type" := JStr "bias_detection" ]}) = Ok (text_result t) ∧
        has_line "Focus Area: General" t ∧
        has_line "Legal Case Analysis Complete for 1FDV-23-0001009" t) ∧
  (∃ t, callTool rt clk "child_welfare_assessment" (Some neglect_assessment) =
          Ok (text_result t) ∧
        has_line "Evidence: To be gathered" t ∧
        has_line "Recommended Action: Under review" t).
Proof.
  split.
  - eexists. split; [reflexivity|].
    split; decide_closed.
  - unfold neglect_assessment. run_handler.
    eexists. split; [reflexivity|].
    rewrite assessment_template_lines. split; find_line.
Qed.

(** *** Deadline monitoring *)

Lemma date_of_ok rt v : printable v = true → is_ok (date_of rt v) = true.
Proof.
  destruct v; try done. 
  - cbn [date_of]. unfold printable. by destruct (ToString _).
  - cbn [date_of]. unfold printable. by destruct (ToString _).
Qed.

(** What a successful deadline request has printed: the day count of its
    date and the urgency of that count. *)
Lemma monitorDeadlines_Ok_inv rt clk a r :
  monitorDeadlines rt clk (Some a) = Ok r →
  ∃ date id deadline_type d priority description,
    date_of rt (get a "date") = Ok date ∧
    r = text_result
          (deadline_template id deadline_type d
             (number_string (daysUntil_of date (clk 2%nat)))
             (urgencyLevel_of (daysUntil_of date (clk 2%nat)))
             priority description).
Proof.
  unfold monitorDeadlines. intros H.
  destruct (date_of rt (get a "date")) as [date|e]; [|done].
  cbn [mbind result_bind] in H. apply text_result_inv in H as [H ->].
  unfold deadline_text in H. inv_bind. rewrite <- H. by repeat eexists.
Qed.

(** Deadline monitoring returns whenever it has arguments that can be
    printed. *)
Lemma monitorDeadlines_total rt clk a :
  printable_args a → is_ok (monitorDeadlines rt clk (Some a)) = true.
Proof.
  intros Ha.
  destruct (is_ok_true _ (date_of_ok rt _ (printable_get a "date" Ha))) as [date Hd].
  unfold monitorDeadlines. rewrite Hd. cbn [mbind result_bind].
  unfold deadline_text.
  by convert_fields (printable_deadline_of clk (Some a) Ha).
Qed.

Lemma ceil_days_whole k : ceil_days (k * ms_per_day) = k.
Proof.
  unfold ceil_days, ms_per_day.
  replace (- (k * (1000 * 60 * 60 * 24))) with ((- k) * 86400000) by lia.
  rewrite Z.div_mul by done. lia.
Qed.

(** A started day counts as a whole one. *)
Lemma ceil_days_started k r :
  0 < r ≤ ms_per_day → ceil_days (k * ms_per_day + r) = k + 1.
Proof.
  unfold ceil_days, ms_per_day. intros Hr.
  assert ((- (k * (1000 * 60 * 60 * 24) + r)) `div` (1000 * 60 * 60 * 24) = - k - 1).
  { symmetry. apply (Z.div_unique_pos _ _ _ (1000 * 60 * 60 * 24 - r)); lia. }
  lia.
Qed.

(** C4, as stated, fails: a date that cannot be parsed makes the handler
    compute [NaN], not raise, and the call returns a text. *)
Lemma C4_counterexample :
  date_parse sample_runtime "not-a-date" = None ∧
  is_ok (monitorDeadlines sample_runtime (λ _, 0) (Some (filing_deadline "not-a-date")))
    = true ∧
  is_ok (callTool sample_runtime (λ _, 0) "monitor_deadlines"
           (Some (filing_deadline "not-a-date"))) = true.
Proof. by vm_compute. Qed.

(** C4 (amended).  A date string that cannot be parsed does not make
    deadline monitoring raise: its day count is [NaN], every text the call
    returns reads [Days Until: NaN] and [Urgency: SCHEDULED], and the call
    returns whenever the arguments can be printed.  The call fails exactly
    when the handler raises, as it does without arguments, and then with an
    internal error whose message holds the operation name and the message
    of what was raised. *)
Theorem C4_unparseable_date_does_not_raise rt clk a s :
  a !! "date" = Some (JStr s) → date_parse rt s = None →
  date_of rt (get a "date") = Ok None ∧
  (∀ r, callTool rt clk "monitor_deadlines" (Some a) = Ok r →
        has_line "Days Until: NaN" (result_text r) ∧
        has_line "Urgency: SCHEDULED" (result_text r)) ∧
  (printable_args a →
   is_ok (callTool rt clk "monitor_deadlines" (Some a)) = true) ∧
  (∀ args,
     (∀ res, callTool rt clk "monitor_deadlines" args = Ok res ↔
             monitorDeadlines rt clk args = Ok res) ∧
     (∀ m, callTool rt clk "monitor_deadlines" args = Err m ↔
           ∃ e, monitorDeadlines rt clk args = Err e ∧
                m = newMcpError rt InternalError
                      ("Error executing monitor_deadlines: " +:+ error_message rt e))) ∧
  monitorDeadlines rt clk None = Err (TypeError (ReadPropertyOfUndefined "date")).
Proof.
  intros Hs Hp.
  assert (date_of rt (get a "date") = Ok None) as Hd.
  { unfold get. rewrite Hs. cbn. by rewrite Hp. }
  split; [done|]. split; [|split; [|split; [|done]]].
  - intros r Hcall. rewrite callTool_wrap, dispatch_monitor_deadlines in Hcall.
    apply wrap_error_Ok_inv, monitorDeadlines_Ok_inv in Hcall
      as (date & id & ty & d & prio & desc & Hd' & ->).
    assert (date = None) as -> by congruence.
    cbn [daysUntil_of mbind option_bind number_string urgencyLevel_of
         result_text text_result content text].
    rewrite deadline_template_lines. split; find_line.
  - intros Ha. rewrite callTool_wrap, dispatch_monitor_deadlines, is_ok_wrap_error.
    by apply monitorDeadlines_total.
  - intros args. rewrite callTool_wrap, dispatch_monitor_deadlines.
    destruct (monitorDeadlines rt clk args) as [r|e0]; cbn [wrap_error].
    + split; [intros res; split; by intros [= ->]|].
      intros m. split; [done|]. by intros (e & ? & _).
    + split; [done|]. intros m. split.
      * intros [= <-]. by exists e0.
      * by intros (e & [= <-] & ->).
Qed.

(** The amended C4 on a deadline whose date is [not-a-date]. *)
Lemma C4_unparseable_date_does_not_raise_witness :
  ∃ r, callTool sample_runtime (λ _, 0) "monitor_deadlines"
         (Some (filing_deadline "not-a-date")) = Ok r ∧
       has_line "Days Until: NaN" (result_text r) ∧
       has_line "Urgency: SCHEDULED" (result_text r).
Proof.
  eexists. split; [reflexivity|].
  destruct (C4_unparseable_date_does_not_raise sample_runtime (λ _, 0)
              (filing_deadline "not-a-date") "not-a-date")
    as (_ & Hlines & _).
  - reflexivity.
  - reflexivity.
  - by apply Hlines.
Defined.

(** C5.  The day count [d] that deadline monitoring computes decides the
    urgency printed by every call that returns: [URGENT] for [d ≤ 7],
    [IMPORTANT] for [7 < d ≤ 30], [SCHEDULED] for [30 < d]; so 7 is urgent,
    8 and 30 are important and 31 is scheduled.  A date a whole number [k]
    of days after the clock reading has [d = k], and the call returns
    whenever the arguments can be printed. *)
Theorem C5_urgency_bands rt clk a t :
  date_of rt (get a "date") = Ok (Some t) →
  let d := ceil_days (t - clk 2%nat) in
  (∀ r, callTool rt clk "monitor_deadlines" (Some a) = Ok r →
        (∃ id deadline_type date priority description,
           r = text_result
                 (deadline_template id deadline_type date (pretty d)
                    (urgencyLevel_of (Some d)) priority description)) ∧
        has_line ("Urgency: " +:+ urgencyLevel_of (Some d)) (result_text r)) ∧
  (printable_args a →
   is_ok (callTool rt clk "monitor_deadlines" (Some a)) = true) ∧
  (d ≤ 7 → urgencyLevel_of (Some d) = "URGENT") ∧
  (7 < d ≤ 30 → urgencyLevel_of (Some d) = "IMPORTANT") ∧
  (30 < d → urgencyLevel_of (Some d) = "SCHEDULED") ∧
  (∀ k, t = clk 2%nat + k * ms_per_day → d = k) ∧
  urgencyLevel_of (Some 7) = "URGENT" ∧
  urgencyLevel_of (Some 8) = "IMPORTANT" ∧
  urgencyLevel_of (Some 30) = "IMPORTANT" ∧
  urgencyLevel_of (Some 31) = "SCHEDULED".
Proof.
  intros Hd d. split; [|split].
  - intros r Hcall. rewrite callTool_wrap, dispatch_monitor_deadlines in Hcall.
    apply wrap_error_Ok_inv, monitorDeadlines_Ok_inv in Hcall
      as (date & id & ty & dt & prio & desc & Hd' & ->).
    assert (date = Some t) as -> by congruence.
    cbn [daysUntil_of mbind option_bind number_string]. fold d.
    split; [by repeat eexists|].
    cbn [result_text text_result content text]. rewrite deadline_template_lines.
    apply has_line_concat; [set_solver|].
    unfold urgencyLevel_of. by repeat case_bool_decide.
  - intros Ha. rewrite callTool_wrap, dispatch_monitor_deadlines, is_ok_wrap_error.
    by apply monitorDeadlines_total.
  - unfold urgencyLevel_of. repeat split; try done.
    + intros. by rewrite bool_decide_eq_true_2.
    + intros. rewrite bool_decide_eq_false_2, bool_decide_eq_true_2; [done|lia..].
    + intros. by rewrite !bool_decide_eq_false_2 by lia.
    + intros k ->. unfold d.
      replace (clk 2%nat + k * ms_per_day - clk 2%nat) with (k * ms_per_day) by lia.
      apply ceil_days_whole.
Qed.

(** C5 on a deadline seven days after the clock reading. *)
Lemma C5_urgency_bands_witness :
  ∃ r, callTool sample_runtime (λ _, 0) "monitor_deadlines"
         (Some (filing_deadline "1970-01-08")) = Ok r ∧
       has_line "Urgency: URGENT" (result_text r).
Proof.
  eexists. split; [reflexivity|].
  destruct (C5_urgency_bands sample_runtime (λ _, 0) (filing_deadline "1970-01-08")
              (7 * ms_per_day))
    as (Hband & _).
  - reflexivity.
  - by apply Hband.
Defined.

(** *** Case analysis *)

Lemma analysis_template_tail case_id analysis_type focus_area findings recommendations
    next_steps :
  analysis_template case_id analysis_type focus_area findings recommendations next_steps =
  ("Legal Case Analysis Complete for " +:+ case_id +:+ nl +:+ nl +:+
   "Analysis Type: " +:+ analysis_type +:+ nl +:+
   "Focus Area: " +:+ focus_area +:+ nl +:+ nl +:+
   "Key Findings:" +:+ nl +:+ findings +:+ nl +:+ nl) +:+
  ("Recommendations:" +:+ nl +:+ recommendations +:+ nl +:+ nl +:+
   "Next Steps:" +:+ nl +:+ next_steps).
Proof. unfold analysis_template. by string_norm. Qed.

(** What a successful analysis has printed. *)
Lemma analyzeLegalCase_Ok_inv clk a r :
  analyzeLegalCase clk (Some a) = Ok r →
  ∃ case_id analysis_type focus_area items,
    generateAnalysisFindings (get a "analysis_type") (get a "focus_area") =
      Ok (FindingsArray items) ∧
    ToString (or_else (get a "focus_area") (JStr "General")) = Ok focus_area ∧
    result_text r =
      analysis_template case_id analysis_type focus_area (String.concat nl items)
        (String.concat nl
           (generateRecommendations (get a "analysis_type") (get a "focus_area")))
        (String.concat nl
           (generateNextSteps (get a "analysis_type") (get a "focus_area"))).
Proof.
  unfold analyzeLegalCase, analysis_of, analysis_text. intros H.
  inv_bind. subst. cbn [a_case_id a_analysis_type a_focus_area a_findings
                        a_recommendations a_next_steps] in *.
  match goal with
  | Hj : join_findings ?f = Ok _ |- _ => destruct f as [items|]; [|done];
      cbn [join_findings] in Hj; injection Hj as <-
  end.
  by repeat eexists.
Qed.

(** The analysis returns when its three arguments can be printed and the
    analysis type does not name a member of [Object.prototype]. *)
Lemma analyzeLegalCase_returns clk a key :
  printable_args a →
  ToString (get a "analysis_type") = Ok key → key ∉ object_prototype_keys →
  is_ok (analyzeLegalCase clk (Some a)) = true.
Proof.
  intros Ha Hkey Hproto.
  unfold analyzeLegalCase, analysis_of, generateAnalysisFindings, analysis_text.
  rewrite Hkey. cbn [mbind result_bind a_case_id a_analysis_type a_focus_area a_findings
                     a_recommendations a_next_steps].
  rewrite Hkey. cbn [mbind result_bind].
  destruct (ToString_get_or_ok a "focus_area" "General" Ha) as [focus ->].
  cbn [mbind result_bind].
  assert (∃ c, ToString match a !! "case_id" with
                        | Some JUndefined | None => JStr caseId
                        | Some v => v
                        end = Ok c) as [c ->].
  { apply printable_ok. destruct (a !! "case_id") as [v|] eqn:E; [|done].
    destruct v; try done; exact (Ha _ _ E). }
  cbn [mbind result_bind].
  destruct (own_property key findings); [done|].
  by rewrite bool_decide_eq_false_2.
Qed.

(** C9.  Whatever the analysis type and the focus area, the Recommendations
    and Next Steps sections of a case analysis are the same two lists of
    four strings, printed after the Key Findings at the end of the text; the
    Key Findings are the entry of the [findings] table for the analysis
    type, and differ from one type to another.  The analysis returns
    whenever its arguments can be printed and the analysis type is not the
    name of a member of [Object.prototype]. *)
Theorem C9_recommendations_and_next_steps_fixed rt clk a :
  (∀ type focus type' focus',
     generateRecommendations type focus = generateRecommendations type' focus' ∧
     generateNextSteps type focus = generateNextSteps type' focus') ∧
  length (generateRecommendations JUndefined JUndefined) = 4%nat ∧
  length (generateNextSteps JUndefined JUndefined) = 4%nat ∧
  (∀ r, callTool rt clk "analyze_legal_case" (Some a) = Ok r →
        ∃ case_id analysis_type focus_area items,
          generateAnalysisFindings (get a "analysis_type") (get a "focus_area") =
            Ok (FindingsArray items) ∧
          result_text r =
            analysis_template case_id analysis_type focus_area (String.concat nl items)
              (String.concat nl (generateRecommendations JUndefined JUndefined))
              (String.concat nl (generateNextSteps JUndefined JUndefined)) ∧
          ends_with
            ("Recommendations:" +:+ nl +:+
             String.concat nl (generateRecommendations JUndefined JUndefined) +:+
             nl +:+ nl +:+
             "Next Steps:" +:+ nl +:+
             String.concat nl (generateNextSteps JUndefined JUndefined))
            (result_text r)) ∧
  (∀ key, printable_args a →
          ToString (get a "analysis_type") = Ok key → key ∉ object_prototype_keys →
          is_ok (callTool rt clk "analyze_legal_case" (Some a)) = true) ∧
  generateAnalysisFindings (JStr "bias_detection") JUndefined ≠
    generateAnalysisFindings (JStr "timeline_analysis") JUndefined.
Proof.
  split; [done|]. split; [done|]. split; [done|]. split; [|split; [|done]].
  - intros r Hcall. rewrite callTool_wrap, dispatch_analyze_legal_case in Hcall.
    apply wrap_error_Ok_inv, analyzeLegalCase_Ok_inv in Hcall
      as (cid & ty & focus & items & Hf & _ & Ht).
    exists cid, ty, focus, items. split; [done|]. split; [done|].
    rewrite Ht, analysis_template_tail. by eexists.
  - intros key Ha Hkey Hproto.
    rewrite callTool_wrap, dispatch_analyze_legal_case, is_ok_wrap_error.
    by eapply analyzeLegalCase_returns.
Qed.

(** C9 on a bias-detection analysis. *)
Lemma C9_recommendations_and_next_steps_fixed_witness :
  ∃ r, callTool sample_runtime (λ _, 0) "analyze_legal_case"
         (Some {[ "analysis_type" := JStr "bias_detection" ]}) = Ok r ∧
       ends_with
         ("Recommendations:" +:+ nl +:+
          String.concat nl (generateRecommendations JUndefined JUndefined) +:+
          nl +:+ nl +:+
          "Next Steps:" +:+ nl +:+
          String.concat nl (generateNextSteps JUndefined JUndefined))
         (result_text r).
Proof.
  eexists. split; [reflexivity|].
  destruct (C9_recommendations_and_next_steps_fixed sample_runtime (λ _, 0)
              {[ "analysis_type" := JStr "bias_detection" ]})
    as (_ & _ & _ & Hsections & _).
  destruct (Hsections _ eq_refl) as (? & ? & ? & ? & _ & _ & Htail).
  exact Htail.
Defined.

(** *** Bias documentation *)

Lemma element_strings_strs names : element_strings (JStr <$> names) = Ok names.
Proof.
  induction names as [|x names IH]; [done|].
  cbn [fmap list_fmap element_strings element_string ToString mbind result_bind].
  change (list_fmap string JSValue JStr names) with (JStr <$> names).
  by rewrite IH.
Qed.

Lemma array_join_strs sep names :
  array_join sep (JStr <$> names) = Ok (String.concat sep names).
Proof. unfold array_join. by rewrite element_strings_strs. Qed.

Lemma string_app_empty a b : a +:+ b = "" → a = "" ∧ b = "".
Proof. destruct a; [done|]. by cbn. Qed.

(** Only the empty list and the list of one empty name join to nothing. *)
Lemma concat_comma_empty names :
  String.concat ", " names = "" ↔ names = [] ∨ names = [ "" ].
Proof.
  split.
  - destruct names as [|x [|y rest]]; [by left| |].
    + cbn. intros ->. by right.
    + rewrite concat_cons_cons. intros H.
      apply string_app_empty in H as [_ H]. by apply string_app_empty in H as [? _].
  - by intros [->| ->].
Qed.

Lemma get_incident_witnesses clk args :
  get (incident_of clk args) "witnesses" = default JUndefined (arg args "witnesses").
Proof. unfold incident_of. by get_object. Qed.

(** What a successful bias report has printed. *)
Lemma documentJudicialBias_Ok_inv clk args r :
  documentJudicialBias clk args = Ok r →
  ∃ id incident_date bias_type impact description witnesses,
    witnesses_text (default JUndefined (arg args "witnesses")) = Ok witnesses ∧
    r = text_result
          (incident_template id incident_date bias_type impact description witnesses).
Proof.
  intros H. apply text_result_inv in H as [H ->]. unfold incident_text in H.
  rewrite get_incident_witnesses in H. inv_bind. rewrite <- H. by repeat eexists.
Qed.

Lemma documentJudicialBias_returns clk args :
  printable_request args →
  is_ok (witnesses_text (default JUndefined (arg args "witnesses"))) = true →
  is_ok (documentJudicialBias clk args) = true.
Proof.
  intros Ha Hw. unfold documentJudicialBias. rewrite is_ok_text_result.
  apply incident_text_ok; [by apply printable_incident_of|].
  by rewrite get_incident_witnesses.
Qed.

(** C10, as stated, fails on the list of one empty name: it is a non-empty
    list of strings, its names joined by a comma are the empty string, and
    the text reads [None specified]. *)
Lemma C10_counterexample :
  ∃ t, callTool sample_runtime (λ _, 0) "document_judicial_bias"
         (Some (bias_report (Some (JArr [ JStr "" ])))) = Ok (text_result t) ∧
       has_line "Witnesses: None specified" t ∧
       ¬ has_line ("Witnesses: " +:+ String.concat ", " [ "" ]) t.
Proof.
  eexists. split; [reflexivity|]. split.
  - decide_closed.
  - decide_closed.
Qed.

Lemma witnesses_text_names names :
  witnesses_text (names_value names) =
  Ok (if bool_decide (names = [] ∨ names = [ "" ]) then "None specified"
      else String.concat ", " names).
Proof.
  unfold names_value. cbn [witnesses_text]. rewrite array_join_strs.
  cbn [mbind result_bind].
  by rewrite (bool_decide_ext _ _ (concat_comma_empty names)).
Qed.

(** C10 (amended).  Every bias report that returns prints [None specified]
    for its witnesses when the argument is omitted, is the empty list, or is
    the list of one empty name, and for every other list of names prints the
    names joined by a comma and a space; the report returns whenever its
    arguments can be printed. *)
Theorem C10_witnesses_rendering rt clk args witnesses :
  arg args "witnesses" = names_value <$> witnesses →
  (∀ r, callTool rt clk "document_judicial_bias" args = Ok r →
        ∃ id incident_date bias_type impact description shown,
          r = text_result
                (incident_template id incident_date bias_type impact description shown) ∧
          (witnesses = None ∨ witnesses = Some [] ∨ witnesses = Some [ "" ] →
           shown = "None specified") ∧
          (∀ names, witnesses = Some names → names ≠ [] → names ≠ [ "" ] →
                    shown = String.concat ", " names) ∧
          (one_line shown = true →
           has_line ("Witnesses: " +:+ shown) (result_text r))) ∧
  (printable_request args →
   is_ok (callTool rt clk "document_judicial_bias" args) = true).
Proof.
  intros Hw.
  assert (∃ shown,
            witnesses_text (default JUndefined (arg args "witnesses")) = Ok shown ∧
            (witnesses = None ∨ witnesses = Some [] ∨ witnesses = Some [ "" ] →
             shown = "None specified") ∧
            (∀ names, witnesses = Some names → names ≠ [] → names ≠ [ "" ] →
                      shown = String.concat ", " names)) as (shown & Hshown & Hnone & Hsome).
  { rewrite Hw. destruct witnesses as [names|]; cbn [fmap option_fmap option_map from_option id].
    - rewrite witnesses_text_names. eexists. split; [done|]. split.
      + intros [?|[[= ->]|[= ->]]]; done.
      + intros ? [= <-] ? ?. rewrite bool_decide_eq_false_2; [done|]. by intros [?|?].
    - exists "None specified". split; [done|]. split; [done|]. by intros. }
  split.
  - intros r Hcall. rewrite callTool_wrap, dispatch_document_judicial_bias in Hcall.
    apply wrap_error_Ok_inv, documentJudicialBias_Ok_inv in Hcall
      as (id & date & ty & impact & desc & w & Hw' & ->).
    assert (w = shown) as -> by congruence.
    exists id, date, ty, impact, desc, shown.
    split; [done|]. split; [done|]. split; [done|].
    intros Hline. cbn [result_text text_result content text].
    rewrite incident_template_lines. apply has_line_concat; [set_solver|]. done.
  - intros Ha.
    rewrite callTool_wrap, dispatch_document_judicial_bias, is_ok_wrap_error.
    apply documentJudicialBias_returns; [done|]. by rewrite Hshown.
Qed.

(** The amended C10 on a report with two witnesses. *)
Lemma C10_witnesses_rendering_witness :
  ∃ r, callTool sample_runtime (λ _, 0) "document_judicial_bias"
         (Some (bias_report (Some (names_value [ "A. Kealoha"; "B. Nakamura" ])))) = Ok r ∧
       has_line "Witnesses: A. Kealoha, B. Nakamura" (result_text r).
Proof.
  eexists. split; [reflexivity|].
  destruct (C10_witnesses_rendering sample_runtime (λ _, 0)
              (Some (bias_report (Some (names_value [ "A. Kealoha"; "B. Nakamura" ]))))
              (Some [ "A. Kealoha"; "B. Nakamura" ]))
    as [Hshown _].
  - reflexivity.
  - destruct (Hshown _ eq_refl) as (? & ? & ? & ? & ? & shown & _ & _ & Hnames & Hline).
    rewrite (Hnames _ eq_refl) in Hline by done. by apply Hline.
Defined.

(** *** The id line *)

Lemma one_line_app a b : one_line (a +:+ b) = one_line a && one_line b.
Proof. induction a as [|c a IH]; [done|]. cbn. by rewrite IH, andb_assoc. Qed.

Lemma one_line_pretty_N_go x s : one_line s = true → one_line (pretty_N_go x s) = true.
Proof.
  revert s. induction (N.lt_wf_0 x) as [x _ IH]. intros s Hs.
  destruct (decide (0 < x)%N) as [Hx|Hx].
  - rewrite pretty_N_go_step by done. apply IH.
    + by apply N.div_lt.
    + cbn [one_line]. rewrite Hs, andb_true_r.
      unfold pretty_N_char. by repeat case_match.
  - assert (x = 0%N) as -> by lia. done.
Qed.

Lemma one_line_pretty (z : Z) : one_line (pretty z) = true.
Proof.
  assert (∀ n : N, one_line (pretty n) = true) as HN.
  { intros n. unfold pretty, pretty_N. case_decide; [done|].
    by apply one_line_pretty_N_go. }
  destruct z as [|p|p]; [done|apply HN|].
  unfold pretty, pretty_Z. rewrite one_line_app. cbn. apply HN.
Qed.

Lemma lines_concat_cons x y rest :
  lines (String.concat nl (x :: y :: rest)) =
  (lines x ++ lines (String.concat nl (y :: rest)))%list.
Proof. by rewrite concat_cons_cons, lines_app_nl. Qed.

(** A text that opens with a title, an empty line and an id line. *)
Section IdLine.

Context (title label id next : string) (body : list string).
Hypothesis Htitle : one_line title = true.
Hypothesis Htitle_id : line_id title = None.
Hypothesis Hlabel : ∀ s, line_id (label +:+ s) = Some s.
Hypothesis Hlabel_line : one_line label = true.
Hypothesis Hid : one_line id = true.

Abbreviation t := (String.concat nl (title :: "" :: (label +:+ id) :: next :: body)).

Lemma id_line_lines :
  lines t = title :: "" :: (label +:+ id) :: lines (String.concat nl (next :: body)).
Proof.
  rewrite !lines_concat_cons.
  rewrite (lines_one_line title), (lines_one_line (label +:+ id)); [done| |done].
  by rewrite one_line_app, Hlabel_line, Hid.
Qed.

Lemma id_of_text_id_line : id_of_text t = Some id.
Proof.
  unfold id_of_text. rewrite id_line_lines.
  cbn [omap list_omap]. rewrite Htitle_id.
  change (line_id "") with (@None string). cbn [omap list_omap].
  by rewrite Hlabel.
Qed.

Lemma without_id_id_line :
  without_id t = title :: "" :: without_id (String.concat nl (next :: body)).
Proof.
  unfold without_id. rewrite id_line_lines.
  rewrite filter_cons_True by done. rewrite filter_cons_True by done.
  rewrite filter_cons_False; [done|]. by rewrite Hlabel.
Qed.

End IdLine.

(** The id printed by each of the four texts, and what is left without it. *)
Lemma evidence_template_id id evidence_type description relevance date_collected :
  one_line id = true →
  id_of_text (evidence_template id evidence_type description relevance date_collected)
    = Some id ∧
  without_id (evidence_template id evidence_type description relevance date_collected) =
  without_id (evidence_template "" evidence_type description relevance date_collected).
Proof.
  intros Hid. rewrite !evidence_template_lines. split.
  - by apply id_of_text_id_line.
  - by rewrite !without_id_id_line.
Qed.

Lemma deadline_template_id id deadline_type date daysUntil urgencyLevel priority
    description :
  one_line id = true →
  id_of_text (deadline_template id deadline_type date daysUntil urgencyLevel priority
                description) = Some id ∧
  without_id (deadline_template id deadline_type date daysUntil urgencyLevel priority
                description) =
  without_id (deadline_template "" deadline_type date daysUntil urgencyLevel priority
                description).
Proof.
  intros Hid. rewrite !deadline_template_lines. split.
  - by apply id_of_text_id_line.
  - by rewrite !without_id_id_line.
Qed.

Lemma incident_template_id id incident_date bias_type impact description witnesses :
  one_line id = true →
  id_of_text (incident_template id incident_date bias_type impact description witnesses)
    = Some id ∧
  without_id (incident_template id incident_date bias_type impact description witnesses) =
  without_id (incident_template "" incident_date bias_type impact description witnesses).
Proof.
  intros Hid. rewrite !incident_template_lines. split.
  - by apply id_of_text_id_line.
  - by rewrite !without_id_id_line.
Qed.

Lemma assessment_template_id id assessment_date concern_type severity evidence
    recommended_action :
  one_line id = true →
  id_of_text (assessment_template id assessment_date concern_type severity evidence
                recommended_action) = Some id ∧
  without_id (assessment_template id assessment_date concern_type severity evidence
                recommended_action) =
  without_id (assessment_template "" assessment_date concern_type severity evidence
                recommended_action).
Proof.
  intros Hid. rewrite !assessment_template_lines. split.
  - by apply id_of_text_id_line.
  - by rewrite !without_id_id_line.
Qed.

(** *** Two calls with the same arguments *)

(** Converts the fields, the same in both calls, one by one; a field that
    cannot be converted raises the same error in both. *)
Ltac convert_both :=
  repeat match goal with
    | |- context [ToString ?v] =>
        destruct (ToString v); cbn [mbind result_bind];
        [|repeat (exists ""); left; by eexists]
    | |- context [witnesses_text ?v] =>
        destruct (witnesses_text v); cbn [mbind result_bind];
        [|repeat (exists ""); left; by eexists]
    end.

Ltac two_calls_done :=
  repeat eexists; right; do 2 eexists; (split; [reflexivity|]); (split; [reflexivity|]);
  done.

Section TwoCalls.

Context (rt : Runtime) (clk1 clk2 : Clock) (args : option (gmap string JSValue)).

Lemma analyzeLegalCase_two_calls :
  analyzeLegalCase clk1 args = analyzeLegalCase clk2 args.
Proof.
  destruct args as [a|]; [|done].
  unfold analyzeLegalCase, analysis_of.
  by destruct (generateAnalysisFindings _ _).
Qed.

Lemma trackEvidence_two_calls :
  ∃ evidence_type description relevance date_collected,
    two_calls "evidence_" clk1 clk2 args
      (λ id, evidence_template id evidence_type description relevance date_collected)
      (λ id, evidence_template id evidence_type description relevance date_collected)
      (trackEvidence clk1 args) (trackEvidence clk2 args).
Proof.
  unfold two_calls, trackEvidence, evidence_text, evidence_of. get_object.
  destruct (arg args "id") as [v|]; cbn [from_option id ToString mbind result_bind];
    convert_both; two_calls_done.
Qed.

Lemma documentJudicialBias_two_calls :
  ∃ incident_date bias_type impact description witnesses,
    two_calls "bias_incident_" clk1 clk2 args
      (λ id, incident_template id incident_date bias_type impact description witnesses)
      (λ id, incident_template id incident_date bias_type impact description witnesses)
      (documentJudicialBias clk1 args) (documentJudicialBias clk2 args).
Proof.
  unfold two_calls, documentJudicialBias, incident_text, incident_of. get_object.
  destruct (arg args "id") as [v|]; cbn [from_option id ToString mbind result_bind];
    convert_both; two_calls_done.
Qed.

Lemma assessChildWelfare_two_calls :
  ∃ assessment_date concern_type severity evidence recommended_action,
    two_calls "welfare_" clk1 clk2 args
      (λ id, assessment_template id assessment_date concern_type severity evidence
               recommended_action)
      (λ id, assessment_template id assessment_date concern_type severity evidence
               recommended_action)
      (assessChildWelfare clk1 args) (assessChildWelfare clk2 args).
Proof.
  unfold two_calls, assessChildWelfare, assessment_text, assessment_of. get_object.
  destruct (arg args "id") as [v|]; cbn [from_option id ToString mbind result_bind];
    convert_both; two_calls_done.
Qed.

Lemma monitorDeadlines_two_calls :
  ∃ deadline_type date priority description,
    two_calls "deadline_" clk1 clk2 args
      (λ id, deadline_template id deadline_type date
               (number_string (day_count rt clk1 args))
               (urgencyLevel_of (day_count rt clk1 args)) priority description)
      (λ id, deadline_template id deadline_type date
               (number_string (day_count rt clk2 args))
               (urgencyLevel_of (day_count rt clk2 args)) priority description)
      (monitorDeadlines rt clk1 args) (monitorDeadlines rt clk2 args).
Proof.
  unfold two_calls, monitorDeadlines, day_count.
  destruct args as [a|]; [|repeat (exists ""); left; by eexists].
  cbn [mbind option_bind].
  destruct (date_of rt (get a "date")) as [dt|e]; cbn [mbind result_bind];
    [|repeat (exists ""); left; by eexists].
  unfold deadline_text, deadline_of. get_object.
  destruct (arg (Some a) "id") as [v|]; cbn [from_option id ToString mbind result_bind];
    convert_both; two_calls_done.
Qed.

End TwoCalls.

(** What two calls of that shape have in common, and where they differ. *)
Lemma two_calls_compared prefix clk1 clk2 args template1 template2 h1 h2 :
  two_calls prefix clk1 clk2 args template1 template2 h1 h2 →
  prints_id template1 → prints_id template2 → one_line prefix = true →
  is_ok h1 = is_ok h2 ∧
  ∀ r1 r2, h1 = Ok r1 → h2 = Ok r2 →
    ((∀ id, template1 id = template2 id) →
     without_id (result_text r1) = without_id (result_text r2)) ∧
    (arg args "id" = None → clk1 0%nat ≠ clk2 0%nat →
     ∃ id1 id2, id_of_text (result_text r1) = Some id1 ∧
                id_of_text (result_text r2) = Some id2 ∧ id1 ≠ id2).
Proof.
  intros [(e & -> & ->)|(id1 & id2 & -> & -> & Hids)] Hp1 Hp2 Hprefix; [done|].
  split; [done|]. intros r1 r2 [= <-] [= <-]. cbn [result_text text_result content text].
  assert (∀ z : Z, one_line (prefix +:+ pretty z) = true) as Hgen.
  { intros z. by rewrite one_line_app, Hprefix, one_line_pretty. }
  split.
  - intros Hsame. destruct (arg args "id") as [v|].
    + subst id2. by rewrite Hsame.
    + destruct Hids as [-> ->].
      rewrite (proj2 (Hp1 _ (Hgen _))), (proj2 (Hp2 _ (Hgen _))). by rewrite Hsame.
  - intros Hnone Hclk. rewrite Hnone in Hids. destruct Hids as [-> ->].
    eexists _, _. split; [exact (proj1 (Hp1 _ (Hgen _)))|].
    split; [exact (proj1 (Hp2 _ (Hgen _)))|].
    intros Heq. apply Hclk. by apply (inj pretty), (inj (String.app prefix)).
Qed.

(** C6, as stated, fails on deadline monitoring: for a deadline on the ninth
    day, a call on day 0 prints 8 days and [IMPORTANT], a call one day later
    prints 7 days and [URGENT]. *)
Lemma C6_counterexample : ¬ C6_as_stated sample_runtime.
Proof.
  intros H.
  edestruct (H "monitor_deadlines" (Some (filing_deadline "1970-01-09"))
               (at_time 0) (at_time ms_per_day)) as [_ Hsame].
  - unfold operation_names. set_solver.
  - intros i j. by cbv.
  - reflexivity.
  - reflexivity.
  - by vm_compute in Hsame.
Qed.

(** Case analysis reads the clock for a timestamp it does not print: its
    outcome is the same at any time, and no id tells two calls apart. *)
Lemma analyze_legal_case_ignores_clock rt clk1 clk2 args :
  callTool rt clk1 "analyze_legal_case" args = callTool rt clk2 "analyze_legal_case" args.
Proof.
  rewrite !callTool_wrap, !dispatch_analyze_legal_case.
  by rewrite (analyzeLegalCase_two_calls clk1 clk2).
Qed.

(** An [id] among the arguments overrides the generated one. *)
Lemma supplied_id_is_printed rt clk :
  ∃ t, callTool rt clk "track_evidence" (Some (<["id" := JStr "exhibit-1"]> court_filing))
         = Ok (text_result t) ∧
       id_of_text t = Some "exhibit-1".
Proof.
  unfold court_filing. run_handler. eexists. split; [reflexivity|].
  by apply evidence_template_id.
Qed.

(** Compares two calls of one of the four handlers that print an id. *)
Ltac compare_two_calls Htc template_id :=
  rewrite !callTool_wrap;
  rewrite ?dispatch_track_evidence, ?dispatch_monitor_deadlines,
    ?dispatch_document_judicial_bias, ?dispatch_child_welfare_assessment;
  rewrite !is_ok_wrap_error;
  apply two_calls_compared in Htc as [Hok Hcmp];
    [|intros ? ?; by apply template_id..|done];
  split; [exact Hok|];
  intros r1 r2 H1 H2;
  apply wrap_error_Ok_inv in H1; apply wrap_error_Ok_inv in H2;
  destruct (Hcmp r1 r2 H1 H2) as [Hcontent Hids];
  split; [|intros _; exact Hids].

(** C6 (amended).  Whether a call returns does not depend on the clock.
    When two calls of one operation with the same arguments both return,
    their texts are the same apart from the id line, provided, for deadline
    monitoring, that both compute the same day count; and for the four
    operations other than case analysis, when the arguments hold no [id] of
    their own and the clock readings taken for the id differ, the ids they
    print differ. *)
Theorem C6_two_calls_same_arguments rt clk1 clk2 tool args :
  tool ∈ operation_names →
  is_ok (callTool rt clk1 tool args) = is_ok (callTool rt clk2 tool args) ∧
  ∀ r1 r2, callTool rt clk1 tool args = Ok r1 → callTool rt clk2 tool args = Ok r2 →
    ((tool = "monitor_deadlines" → day_count rt clk1 args = day_count rt clk2 args) →
     without_id (result_text r1) = without_id (result_text r2)) ∧
    (tool ≠ "analyze_legal_case" → arg args "id" = None → clk1 0%nat ≠ clk2 0%nat →
     ∃ id1 id2, id_of_text (result_text r1) = Some id1 ∧
                id_of_text (result_text r2) = Some id2 ∧ id1 ≠ id2).
Proof.
  intros Hin. unfold operation_names in Hin.
  repeat (apply elem_of_cons in Hin as [->|Hin]); [..|by apply elem_of_nil in Hin].
  - rewrite (analyze_legal_case_ignores_clock rt clk1 clk2).
    split; [done|]. intros r1 r2 H1 H2. split; [|done].
    intros _. congruence.
  - destruct (trackEvidence_two_calls clk1 clk2 args) as (ty & d & r & dc & Htc).
    compare_two_calls Htc evidence_template_id. intros _. by apply Hcontent.
  - destruct (monitorDeadlines_two_calls rt clk1 clk2 args)
      as (ty & d & prio & desc & Htc).
    compare_two_calls Htc deadline_template_id.
    intros Hdays. apply Hcontent. intros id. by rewrite (Hdays eq_refl).
  - destruct (documentJudicialBias_two_calls clk1 clk2 args)
      as (date & ty & impact & desc & w & Htc).
    compare_two_calls Htc incident_template_id. intros _. by apply Hcontent.
  - destruct (assessChildWelfare_two_calls clk1 clk2 args)
      as (date & ty & sev & ev & act & Htc).
    compare_two_calls Htc assessment_template_id. intros _. by apply Hcontent.
Qed.

(** The amended C6 on the same evidence tracked at two clock readings. *)
Lemma C6_two_calls_same_arguments_witness :
  ∃ r1 r2,
    callTool sample_runtime (at_time 0) "track_evidence" (Some court_filing) = Ok r1 ∧
    callTool sample_runtime (at_time 1) "track_evidence" (Some court_filing) = Ok r2 ∧
    without_id (result_text r1) = without_id (result_text r2) ∧
    ∃ id1 id2, id_of_text (result_text r1) = Some id1 ∧
               id_of_text (result_text r2) = Some id2 ∧ id1 ≠ id2.
Proof.
  eexists _, _. split; [reflexivity|]. split; [reflexivity|].
  assert ("track_evidence" ∈ operation_names) as Hin
    by decide_closed.
  destruct (C6_two_calls_same_arguments sample_runtime (at_time 0) (at_time 1)
              "track_evidence" (Some court_filing) Hin) as [_ Hcmp].
  destruct (Hcmp _ _ eq_refl eq_refl) as [Hcontent Hids].
  split; [by apply Hcontent|]. by apply Hids.
Defined.

(** ** Further properties *)

(** *** The handlers in terms of the arguments *)

(** Whatever [ToString] raises is the [TypeError] of an object without a
    primitive value. *)
Lemma ToString_Err_depth n :
  ∀ v e, (depth v ≤ n)%nat → ToString v = Err e → e = TypeError ObjectToPrimitive.
Proof.
  induction n as [|n IH]; intros v e Hn;
    destruct v as [| |b|k|s|items|fields]; try done; cbn [depth] in Hn; try lia.
  - cbn [ToString]. by case_match; intros [= <-].
  - rewrite ToString_JArr. unfold array_join. intros H.
    apply bind_Err_inv in H as [H|(strs & _ & ?)]; [|done].
    assert (Forall (λ x, (depth x ≤ n)%nat) items) as Hitems.
    { apply Forall_forall. intros x Hx.
      assert (depth x ≤ max_list (depth <$> items))%nat; [|lia].
      apply max_list_elem_of_le, list_elem_of_fmap. eauto. }
    clear Hn. induction Hitems as [|x items Hx _ IHitems]; [done|].
    cbn [element_strings] in H.
    apply bind_Err_inv in H as [H|(s & _ & H)].
    + destruct x; try done; by apply IH in H.
    + apply bind_Err_inv in H as [H|(ss & _ & ?)]; [by apply IHitems|done].
  - cbn [ToString]. by case_match; intros [= <-].
Qed.

Lemma ToString_Err v e : ToString v = Err e → e = TypeError ObjectToPrimitive.
Proof. by apply (ToString_Err_depth (depth v)). Qed.

Lemma shown_or_or_else v d : ToString (or_else v (JStr d)) = shown_or v d.
Proof. unfold or_else, shown_or. by destruct (truthy v). Qed.

(** Compares two runs of the conversions of a handler. *)
Ltac same_conversions :=
  repeat match goal with
    | |- context [ToString ?v] => destruct (ToString v); cbn [mbind result_bind]; try done
    | |- context [shown_or ?v ?d] =>
        destruct (shown_or v d); cbn [mbind result_bind]; try done
    | |- context [witnesses_text ?v] =>
        destruct (witnesses_text v); cbn [mbind result_bind]; try done
    end.

Section Equations.

Context (rt : Runtime) (clk : Clock) (args : option (gmap string JSValue)).

Lemma trackEvidence_eq :
  trackEvidence clk args =
  id ← ToString (default (JStr ("evidence_" +:+ pretty (clk 0%nat))) (arg args "id"));
  evidence_type ← ToString (field args "evidence_type");
  description ← ToString (field args "description");
  relevance ← shown_or (field args "relevance") "Not specified";
  date_collected ← shown_or (field args "date_collected") "Not specified";
  Ok (text_result (evidence_template id evidence_type description relevance date_collected)).
Proof.
  unfold trackEvidence, evidence_text, evidence_of, field. get_object.
  rewrite !shown_or_or_else. same_conversions.
Qed.

Lemma documentJudicialBias_eq :
  documentJudicialBias clk args =
  id ← ToString (default (JStr ("bias_incident_" +:+ pretty (clk 0%nat))) (arg args "id"));
  incident_date ← ToString (field args "incident_date");
  bias_type ← ToString (field args "bias_type");
  impact ← ToString (field args "impact");
  description ← ToString (field args "description");
  witnesses ← witnesses_text (field args "witnesses");
  Ok (text_result
        (incident_template id incident_date bias_type impact description witnesses)).
Proof.
  unfold documentJudicialBias, incident_text, incident_of, field. get_object.
  same_conversions.
Qed.

Lemma assessChildWelfare_eq :
  assessChildWelfare clk args =
  id ← ToString (default (JStr ("welfare_" +:+ pretty (clk 0%nat))) (arg args "id"));
  assessment_date ← ToString (field args "assessment_date");
  concern_type ← ToString (field args "concern_type");
  severity ← ToString (field args "severity");
  evidence ← shown_or (field args "evidence") "To be gathered";
  recommended_action ← shown_or (field args "recommended_action") "Under review";
  Ok (text_result
        (assessment_template id assessment_date concern_type severity evidence
           recommended_action)).
Proof.
  unfold assessChildWelfare, assessment_text, assessment_of, field. get_object.
  rewrite !shown_or_or_else. same_conversions.
Qed.

Lemma monitorDeadlines_eq a :
  monitorDeadlines rt clk (Some a) =
  date ← date_of rt (get a "date");
  id ← ToString (default (JStr ("deadline_" +:+ pretty (clk 0%nat))) (a !! "id"));
  deadline_type ← ToString (get a "deadline_type");
  d ← ToString (get a "date");
  priority ← ToString (get a "priority");
  description ← ToString (get a "description");
  Ok (text_result
        (deadline_template id deadline_type d
           (number_string (daysUntil_of date (clk 2%nat)))
           (urgencyLevel_of (daysUntil_of date (clk 2%nat))) priority description)).
Proof.
  unfold monitorDeadlines, deadline_text, deadline_of. get_object.
  change (arg (Some a)) with (λ k, a !! k). cbn beta. fold (get a "deadline_type").
  fold (get a "date") (get a "priority") (get a "description").
  destruct (date_of rt (get a "date")); cbn [mbind result_bind]; [|done].
  same_conversions.
Qed.

Lemma analyzeLegalCase_eq a :
  analyzeLegalCase clk (Some a) =
  findings ← generateAnalysisFindings (get a "analysis_type") (get a "focus_area");
  case_id ← ToString match a !! "case_id" with
                     | None | Some JUndefined => JStr caseId
                     | Some v => v
                     end;
  analysis_type ← ToString (get a "analysis_type");
  focus_area ← shown_or (get a "focus_area") "General";
  key_findings ← join_findings findings;
  Ok (text_result
        (analysis_template case_id analysis_type focus_area key_findings
           (String.concat nl (generateRecommendations JUndefined JUndefined))
           (String.concat nl (generateNextSteps JUndefined JUndefined)))).
Proof.
  unfold analyzeLegalCase, analysis_of, analysis_text.
  destruct (generateAnalysisFindings _ _) as [fs|e]; cbn [mbind result_bind]; [|done].
  cbn [a_case_id a_analysis_type a_focus_area a_findings a_recommendations a_next_steps].
  rewrite shown_or_or_else. same_conversions.
  by destruct (join_findings fs).
Qed.

End Equations.

Lemma shown_or_ok v d : printable v = true → ∃ s, shown_or v d = Ok s.
Proof.
  intros Hv. unfold shown_or. destruct (truthy v); [|by eexists].
  by apply printable_ok.
Qed.

Lemma own_property_None {A} key (table : list (string * A)) :
  key ∉ table.*1 → own_property key table = None.
Proof.
  induction table as [|[k v] table IH]; [done|].
  cbn [own_property fmap list_fmap fst]. intros Hk.
  apply not_elem_of_cons in Hk as [Hne Hk].
  rewrite bool_decide_eq_false_2 by done. by apply IH.
Qed.

(** *** Case analysis *)

(** X1.  The [findings] table has an entry for each analysis type the
    descriptor allows and for nothing else.  For an allowed type the
    findings are the three of its entry, never the generic message; for
    every other type that is not the name of a member of
    [Object.prototype], they are the generic message alone.  The focus area
    plays no part. *)
Theorem X1_findings_by_analysis_type type focus key :
  ToString type = Ok key → key ∉ object_prototype_keys →
  findings.*1 = analysis_types ∧
  ∃ items,
    generateAnalysisFindings type focus = Ok (FindingsArray items) ∧
    (key ∈ analysis_types →
     own_property key findings = Some items ∧ length items = 3%nat ∧
     generic_finding ∉ items) ∧
    (key ∉ analysis_types → items = [ generic_finding ]).
Proof.
  intros Hkey Hproto. split; [reflexivity|].
  unfold generateAnalysisFindings. rewrite Hkey. cbn [mbind result_bind].
  destruct (decide (key ∈ analysis_types)) as [Hin|Hout].
  - change analysis_types with
      [ "bias_detection"; "timeline_analysis"; "precedent_research";
        "civil_rights_review" ] in Hin.
    repeat (apply elem_of_cons in Hin as [->|Hin]); [..|by apply elem_of_nil in Hin];
      (eexists; split; [reflexivity|];
       split; [|intros Hn; exfalso; apply Hn; decide_closed]; intros _;
       split; [reflexivity|]; split; [reflexivity|]; decide_closed).
  - rewrite own_property_None by done. rewrite bool_decide_eq_false_2 by done.
    eexists. split; [reflexivity|]. split; [by intros ?|]. by intros _.
Qed.

(** X1 on the timeline analysis. *)
Lemma X1_findings_by_analysis_type_witness :
  ∃ items,
    generateAnalysisFindings (JStr "timeline_analysis") (JStr "due_process") =
      Ok (FindingsArray items) ∧
    length items = 3%nat.
Proof.
  destruct (X1_findings_by_analysis_type (JStr "timeline_analysis") (JStr "due_process")
              "timeline_analysis") as (_ & items & Hf & Hin & _).
  - reflexivity.
  - decide_closed.
  - exists items. split; [exact Hf|]. apply Hin. decide_closed.
Defined.

Lemma ToString_case_id_ok (a : gmap string JSValue) :
  printable_args a →
  ∃ s, ToString match a !! "case_id" with
                | None | Some JUndefined => JStr caseId
                | Some v => v
                end = Ok s.
Proof.
  intros Ha. apply printable_ok. destruct (a !! "case_id") as [v|] eqn:E; [|done].
  destruct v; try done; exact (Ha _ _ E).
Qed.

(** X2.  An analysis type that names a member of [Object.prototype], such
    as [toString] or [constructor], finds that member in the [findings]
    table instead of a list: joining it raises, and the call fails with an
    internal error that says that [analysis.findings.join] is not a
    function. *)
Theorem X2_prototype_member_as_analysis_type rt clk a key :
  ToString (get a "analysis_type") = Ok key → key ∈ object_prototype_keys →
  printable_args a →
  generateAnalysisFindings (get a "analysis_type") (get a "focus_area") =
    Ok FindingsInherited ∧
  callTool rt clk "analyze_legal_case" (Some a) =
    Err (newMcpError rt InternalError
           ("Error executing analyze_legal_case: " +:+
            type_error_message rt (NotAFunction "analysis.findings.join"))).
Proof.
  intros Hkey Hproto Ha.
  assert (generateAnalysisFindings (get a "analysis_type") (get a "focus_area") =
          Ok FindingsInherited) as Hf.
  { unfold generateAnalysisFindings. rewrite Hkey. cbn [mbind result_bind].
    rewrite own_property_None.
    - by rewrite bool_decide_eq_true_2.
    - intros Hin. unfold object_prototype_keys in Hproto.
      repeat (apply elem_of_cons in Hproto as [->|Hproto]);
        [..|by apply elem_of_nil in Hproto]; revert Hin; decide_closed. }
  split; [exact Hf|].
  rewrite callTool_wrap, dispatch_analyze_legal_case, analyzeLegalCase_eq, Hf, Hkey.
  cbn [mbind result_bind].
  destruct (ToString_case_id_ok a Ha) as [c ->].
  destruct (shown_or_ok (get a "focus_area") "General" (printable_get a _ Ha)) as [f ->].
  reflexivity.
Qed.

(** X2 on the analysis type [toString]. *)
Lemma X2_prototype_member_as_analysis_type_witness :
  callTool sample_runtime (at_time 0) "analyze_legal_case"
    (Some {[ "analysis_type" := JStr "toString" ]}) =
  Err {| code := InternalError;
         message := "MCP error -32603: Error executing analyze_legal_case: analysis.findings.join is not a function" |}.
Proof.
  destruct (X2_prototype_member_as_analysis_type sample_runtime (at_time 0)
              {[ "analysis_type" := JStr "toString" ]} "toString") as [_ Hcall].
  - reflexivity.
  - decide_closed.
  - decide_closed.
  - exact Hcall.
Defined.




(** *** Fields that are missing, empty or not of their type *)

Lemma analysis_template_lines case_id analysis_type focus_area findings recommendations
    next_steps :
  analysis_template case_id analysis_type focus_area findings recommendations next_steps =
  String.concat nl
    [ "Legal Case Analysis Complete for " +:+ case_id; "";
      "Analysis Type: " +:+ analysis_type;
      "Focus Area: " +:+ focus_area; "";
      "Key Findings:"; findings; "";
      "Recommendations:"; recommendations; "";
      "Next Steps:"; next_steps ].
Proof. unfold analysis_template. by string_norm. Qed.

(** Opens a call that returned: the conversions it made, and its text. *)
Ltac open_call H args :=
  rewrite callTool_wrap in H;
  rewrite ?dispatch_analyze_legal_case, ?dispatch_track_evidence,
    ?dispatch_monitor_deadlines, ?dispatch_document_judicial_bias,
    ?dispatch_child_welfare_assessment in H;
  apply wrap_error_Ok_inv in H;
  first
    [ rewrite trackEvidence_eq in H
    | rewrite documentJudicialBias_eq in H
    | rewrite assessChildWelfare_eq in H
    | destruct args as [?a|]; [|discriminate H];
      first [rewrite monitorDeadlines_eq in H | rewrite analyzeLegalCase_eq in H] ];
  inv_bind; subst;
  cbn [result_text text_result content text];
  rewrite ?evidence_template_lines, ?deadline_template_lines, ?incident_template_lines,
    ?assessment_template_lines, ?analysis_template_lines.

(** Reads the conversions of a field whose value is known. *)
Ltac read_field Hk :=
  unfold field, get, arg in *; cbn [mbind option_bind] in *;
  rewrite Hk in *; cbn [from_option id ToString shown_or truthy] in *;
  repeat match goal with
    | H : @Ok JsError string _ = Ok _ |- _ => injection H as H; try subst
    end.

(** X4.  The handlers do not check the fields their descriptors require:
    a call that returns prints a required field that is a string as it is
    given, and prints [undefined] for one that is omitted. *)
Theorem X4_required_fields_are_not_checked rt clk tool k label args r :
  (tool, k, label) ∈ required_labels →
  callTool rt clk tool args = Ok r →
  k ∈ (t ← descriptors_named tool; required (inputSchema t)) ∧
  (arg args k = None → has_line (label +:+ "undefined") (result_text r)) ∧
  (∀ s, arg args k = Some (JStr s) → one_line s = true →
        has_line (label +:+ s) (result_text r)).
Proof.
  intros Hin Hcall. unfold required_labels in Hin.
  repeat (apply elem_of_cons in Hin as [Heq|Hin]); [..|by apply elem_of_nil in Hin];
    injection Heq as -> -> ->;
    (split; [decide_closed|]);
    open_call Hcall args;
    (split; [intros Hk|intros given Hk Hgiven]; read_field Hk;
     (apply has_line_concat; [set_solver|]; try reflexivity;
      by rewrite one_line_app, Hgiven)).
Qed.

(** X4 on evidence tracked without any argument. *)
Lemma X4_required_fields_are_not_checked_witness :
  ∃ r, callTool sample_runtime (at_time 0) "track_evidence" None = Ok r ∧
       has_line "Description: undefined" (result_text r).
Proof.
  eexists. split; [reflexivity|].
  edestruct (X4_required_fields_are_not_checked sample_runtime (at_time 0)
               "track_evidence" "description" "Description: " None)
    as (_ & Hnone & _).
  - decide_closed.
  - reflexivity.
  - by apply Hnone.
Defined.

(** X5.  Evidence tracking and welfare assessment return on every request
    whose arguments can be printed, also on a request without arguments;
    bias documentation does so when its witnesses are omitted or a list.
    Case analysis and deadline monitoring read a property of the arguments
    and fail without them, with an internal error. *)
Theorem X5_requests_without_arguments rt clk args :
  printable_request args →
  is_ok (callTool rt clk "track_evidence" args) = true ∧
  is_ok (callTool rt clk "child_welfare_assessment" args) = true ∧
  (is_ok (witnesses_text (field args "witnesses")) = true →
   is_ok (callTool rt clk "document_judicial_bias" args) = true) ∧
  (args = None →
   callTool rt clk "analyze_legal_case" args =
     Err (newMcpError rt InternalError
            ("Error executing analyze_legal_case: " +:+
             type_error_message rt DestructureUndefined)) ∧
   callTool rt clk "monitor_deadlines" args =
     Err (newMcpError rt InternalError
            ("Error executing monitor_deadlines: " +:+
             type_error_message rt (ReadPropertyOfUndefined "date")))).
Proof.
  intros Ha. rewrite !callTool_wrap.
  rewrite dispatch_track_evidence, dispatch_child_welfare_assessment,
    dispatch_document_judicial_bias, dispatch_analyze_legal_case,
    dispatch_monitor_deadlines, !is_ok_wrap_error.
  split; [by apply trackEvidence_returns|].
  split; [by apply assessChildWelfare_returns|].
  split; [by apply documentJudicialBias_returns|].
  by intros ->.
Qed.

(** X5 on a request without arguments. *)
Lemma X5_requests_without_arguments_witness :
  is_ok (callTool sample_runtime (at_time 0) "track_evidence" None) = true ∧
  is_ok (callTool sample_runtime (at_time 0) "child_welfare_assessment" None) = true ∧
  is_ok (callTool sample_runtime (at_time 0) "document_judicial_bias" None) = true ∧
  is_ok (callTool sample_runtime (at_time 0) "analyze_legal_case" None) = false ∧
  is_ok (callTool sample_runtime (at_time 0) "monitor_deadlines" None) = false.
Proof.
  destruct (X5_requests_without_arguments sample_runtime (at_time 0) None I)
    as (He & Hw & Hb & Hnone).
  destruct (Hnone eq_refl) as [Ha Hm].
  split; [exact He|]. split; [exact Hw|]. split; [by apply Hb|].
  by rewrite Ha, Hm.
Defined.

(** X6.  An optional field printed with a fallback gets the fallback not
    only when it is omitted but for every falsy value, the empty string
    among them; a string that is not empty is printed as it is given. *)
Theorem X6_fallback_for_falsy_values rt clk tool k label fallback args r :
  (tool, k, label, fallback) ∈ fallbacks →
  callTool rt clk tool args = Ok r →
  k ∈ (t ← descriptors_named tool; optional_fields t) ∧
  (field args k ∈ falsy_values → has_line (label +:+ fallback) (result_text r)) ∧
  (∀ s, field args k = JStr s → s ≠ "" → one_line s = true →
        has_line (label +:+ s) (result_text r)).
Proof.
  intros Hin Hcall. unfold fallbacks in Hin.
  repeat (apply elem_of_cons in Hin as [Heq|Hin]); [..|by apply elem_of_nil in Hin];
    injection Heq as -> -> -> ->;
    (split; [decide_closed|]);
    open_call Hcall args;
    (split;
     [ intros Hk; unfold falsy_values in Hk;
       repeat (apply elem_of_cons in Hk as [Hk|Hk]); [..|by apply elem_of_nil in Hk]
     | intros given Hk Hne Hgiven ]);
    unfold field, get, arg in *; cbn [mbind option_bind] in *;
    rewrite Hk in *; unfold shown_or in *; cbn [truthy ToString Z.eqb negb] in *;
    rewrite ?bool_decide_eq_true_2, ?(bool_decide_eq_false_2 (given = "")) in * by done;
    cbn [negb] in *;
    repeat match goal with
      | H : @Ok JsError string _ = Ok _ |- _ => injection H as H; try subst
      end;
    (apply has_line_concat; [set_solver|]; try reflexivity;
     by rewrite one_line_app, Hgiven).
Qed.

(** X6 on evidence whose relevance is the empty string. *)
Lemma X6_fallback_for_falsy_values_witness :
  ∃ r, callTool sample_runtime (at_time 0) "track_evidence"
         (Some (<["relevance" := JStr ""]> court_filing)) = Ok r ∧
       has_line "Relevance: Not specified" (result_text r).
Proof.
  eexists. split; [reflexivity|].
  edestruct (X6_fallback_for_falsy_values sample_runtime (at_time 0)
               "track_evidence" "relevance" "Relevance: " "Not specified"
               (Some (<["relevance" := JStr ""]> court_filing)))
    as (_ & Hfalsy & _).
  - decide_closed.
  - reflexivity.
  - apply Hfalsy.
    change (field (Some (<["relevance" := JStr ""]> court_filing)) "relevance")
      with (JStr "").
    unfold falsy_values. set_solver.
Defined.

(** *** The dispatcher and the registry *)

Lemma ToString_TypeError v e : ToString v = Err e → ∃ site, e = TypeError site.
Proof. intros ->%ToString_Err. by eexists. Qed.

Lemma shown_or_TypeError v d e : shown_or v d = Err e → ∃ site, e = TypeError site.
Proof. unfold shown_or. destruct (truthy v); [apply ToString_TypeError|done]. Qed.

Lemma witnesses_text_TypeError v e :
  witnesses_text v = Err e → ∃ site, e = TypeError site.
Proof.
  destruct v as [| |b|n|s|items|fields]; cbn [witnesses_text];
    try done; try (intros [= <-]; by eexists).
  intros H. apply bind_Err_inv in H as [H|(joined & _ & ?)]; [|done].
  apply (ToString_TypeError (JArr items)). rewrite ToString_JArr.
  unfold array_join in *. by destruct (element_strings items).
Qed.

Lemma date_of_TypeError rt v e : date_of rt v = Err e → ∃ site, e = TypeError site.
Proof.
  destruct v as [| |b|n|s|items|fields]; cbn [date_of]; try done;
    intros H; apply bind_Err_inv in H as [H|(joined & _ & ?)]; try done;
    by apply ToString_TypeError in H.
Qed.

Lemma generateAnalysisFindings_TypeError type focus e :
  generateAnalysisFindings type focus = Err e → ∃ site, e = TypeError site.
Proof.
  unfold generateAnalysisFindings. intros H.
  apply bind_Err_inv in H as [H|(key & _ & ?)]; [|done].
  by apply ToString_TypeError in H.
Qed.

Lemma join_findings_TypeError f e : join_findings f = Err e → ∃ site, e = TypeError site.
Proof. destruct f; [done|]. intros [= <-]. by eexists. Qed.

(** Follows an error through the conversions of a handler. *)
Ltac find_error H :=
  repeat (apply bind_Err_inv in H as [H|(? & _ & H)]);
  try discriminate H;
  eauto using ToString_TypeError, shown_or_TypeError, witnesses_text_TypeError,
    date_of_TypeError, generateAnalysisFindings_TypeError, join_findings_TypeError.

(** The handlers raise nothing but [TypeError]s. *)
Lemma handlers_raise_TypeError rt clk tool args e :
  tool ∈ name <$> listTools →
  dispatch rt clk tool args = Err e → ∃ site, e = TypeError site.
Proof.
  intros Hin H.
  change (name <$> listTools) with operation_names in Hin. unfold operation_names in Hin.
  repeat (apply elem_of_cons in Hin as [->|Hin]); [..|by apply elem_of_nil in Hin].
  - rewrite dispatch_analyze_legal_case in H. destruct args as [a|].
    + rewrite analyzeLegalCase_eq in H. find_error H.
    + injection H as <-. by eexists.
  - rewrite dispatch_track_evidence, trackEvidence_eq in H. find_error H.
  - rewrite dispatch_monitor_deadlines in H. destruct args as [a|].
    + rewrite monitorDeadlines_eq in H. find_error H.
    + injection H as <-. by eexists.
  - rewrite dispatch_document_judicial_bias, documentJudicialBias_eq in H. find_error H.
  - rewrite dispatch_child_welfare_assessment, assessChildWelfare_eq in H. find_error H.
Qed.

(** X7.  The names the dispatcher knows are those of the registry: the
    [default] branch, with its unknown-tool error, is reached exactly by
    the names that [listTools] does not list; under a listed name the
    dispatcher raises nothing but [TypeError]s.  Whatever is raised, the
    error of the call has the internal-error code. *)
Theorem X7_default_branch_iff_unlisted rt clk tool args :
  (dispatch rt clk tool args =
     Err (ThrownMcp (newMcpError rt MethodNotFound ("Unknown tool: " +:+ tool))) ↔
   tool ∉ name <$> listTools) ∧
  (∀ e, dispatch rt clk tool args = Err e →
        ((tool ∈ name <$> listTools) ∧ ∃ site, e = TypeError site) ∨
        ((tool ∉ name <$> listTools) ∧
         e = ThrownMcp (newMcpError rt MethodNotFound ("Unknown tool: " +:+ tool)))) ∧
  (∀ m, callTool rt clk tool args = Err m → code m = InternalError).
Proof.
  split; [|split].
  - split; [|by apply dispatch_unknown].
    intros H Hin. by destruct (handlers_raise_TypeError _ _ _ _ _ Hin H).
  - intros e H. destruct (decide (tool ∈ name <$> listTools)) as [Hin|Hout].
    + left. split; [done|]. by eapply handlers_raise_TypeError.
    + right. split; [done|]. rewrite dispatch_unknown in H by done. by injection H.
  - intros m. rewrite callTool_wrap. destruct (dispatch rt clk tool args); [done|].
    by intros [= <-].
Qed.

(** *** The id, the arguments and the clock *)



(** X9.  A handler reads the keys its descriptor declares, and [id]: two
    argument mappings that agree on them get the same answer, whatever else
    they hold ([case_id] among the rest, outside case analysis). *)
Theorem X9_undeclared_arguments_are_ignored rt clk tool (a a' : gmap string JSValue) :
  tool ∈ operation_names →
  (∀ k, k ∈ declared_fields tool → a !! k = a' !! k) →
  callTool rt clk tool (Some a) = callTool rt clk tool (Some a').
Proof.
  intros Hin Hsame. unfold operation_names in Hin.
  repeat (apply elem_of_cons in Hin as [->|Hin]); [..|by apply elem_of_nil in Hin];
    rewrite !callTool_wrap;
    rewrite ?dispatch_analyze_legal_case, ?dispatch_track_evidence,
      ?dispatch_monitor_deadlines, ?dispatch_document_judicial_bias,
      ?dispatch_child_welfare_assessment;
    rewrite ?analyzeLegalCase_eq, ?trackEvidence_eq, ?monitorDeadlines_eq,
      ?documentJudicialBias_eq, ?assessChildWelfare_eq;
    unfold field, arg, get; cbn [mbind option_bind];
    repeat match goal with
      | |- context [a !! ?k] => rewrite (Hsame k) by decide_closed
      end;
    reflexivity.
Qed.

(** X9 on evidence with a case id and a note of its own. *)
Lemma X9_undeclared_arguments_are_ignored_witness :
  callTool sample_runtime (at_time 0) "track_evidence" (Some court_filing) =
  callTool sample_runtime (at_time 0) "track_evidence"
    (Some (<["case_id" := JStr "2CV-24-0000001"]>
          (<["note" := JStr "sealed"]> court_filing))).
Proof.
  apply X9_undeclared_arguments_are_ignored; [decide_closed|].
  intros k Hk. unfold declared_fields in Hk. vm_compute in Hk.
  repeat (apply elem_of_cons in Hk as [->|Hk]); [..|by apply elem_of_nil in Hk];
    reflexivity.
Defined.

(** X10.  The result of a call depends on the clock through the reading
    taken for the id and, for deadline monitoring, the reading taken for
    the day count: the timestamps a handler stores in its object are
    printed nowhere. *)
Theorem X10_timestamps_are_not_printed rt clk clk' tool args :
  tool ∈ operation_names →
  clk 0%nat = clk' 0%nat →
  (tool = "monitor_deadlines" → clk 2%nat = clk' 2%nat) →
  callTool rt clk tool args = callTool rt clk' tool args.
Proof.
  intros Hin H0 H2. unfold operation_names in Hin.
  repeat (apply elem_of_cons in Hin as [->|Hin]); [..|by apply elem_of_nil in Hin].
  - apply analyze_legal_case_ignores_clock.
  - by rewrite !callTool_wrap, !dispatch_track_evidence, !trackEvidence_eq, H0.
  - rewrite !callTool_wrap, !dispatch_monitor_deadlines.
    destruct args as [a|]; [|done].
    by rewrite !monitorDeadlines_eq, H0, (H2 eq_refl).
  - by rewrite !callTool_wrap, !dispatch_document_judicial_bias,
      !documentJudicialBias_eq, H0.
  - by rewrite !callTool_wrap, !dispatch_child_welfare_assessment,
      !assessChildWelfare_eq, H0.
Qed.

(** X10 on two clocks that agree on their first reading only. *)
Lemma X10_timestamps_are_not_printed_witness :
  callTool sample_runtime (at_time 5) "track_evidence" (Some court_filing) =
  callTool sample_runtime (λ i, 5 + Z.of_nat i) "track_evidence" (Some court_filing).
Proof.
  apply X10_timestamps_are_not_printed; [decide_closed|reflexivity|].
  intros Heq. discriminate Heq.
Defined.

(** *** Deadlines *)

Lemma ceil_days_le k ms : ceil_days ms ≤ k ↔ ms ≤ k * ms_per_day.
Proof.
  unfold ceil_days, ms_per_day.
  pose proof (Z.div_mod (- ms) (1000 * 60 * 60 * 24) ltac:(done)) as Hdiv.
  pose proof (Z.mod_pos_bound (- ms) (1000 * 60 * 60 * 24) ltac:(done)) as Hmod.
  split; intros H; nia.
Qed.

(** X11.  Counting days upwards puts the limits of the urgency bands at
    whole days to the millisecond: a deadline is [URGENT] up to exactly
    seven days ahead and [IMPORTANT] up to exactly thirty, one millisecond
    more moves it to the next band; a deadline that is due or past has a
    day count of zero or less and is [URGENT]. *)
Theorem X11_urgency_to_the_millisecond t now :
  let d := ceil_days (t - now) in
  (∀ k, d ≤ k ↔ t - now ≤ k * ms_per_day) ∧
  (∀ k, k * ms_per_day < t - now ≤ (k + 1) * ms_per_day → d = k + 1) ∧
  urgencyLevel_of (daysUntil_of (Some t) now) =
    (if bool_decide (t - now ≤ 7 * ms_per_day) then "URGENT"
     else if bool_decide (t - now ≤ 30 * ms_per_day) then "IMPORTANT"
     else "SCHEDULED") ∧
  (t ≤ now → d ≤ 0 ∧ urgencyLevel_of (daysUntil_of (Some t) now) = "URGENT").
Proof.
  intros d.
  assert (∀ k, d ≤ k ↔ t - now ≤ k * ms_per_day) as Hle
    by (intros k; apply ceil_days_le).
  assert (urgencyLevel_of (daysUntil_of (Some t) now) =
          (if bool_decide (t - now ≤ 7 * ms_per_day) then "URGENT"
           else if bool_decide (t - now ≤ 30 * ms_per_day) then "IMPORTANT"
           else "SCHEDULED")) as Hurgency.
  { cbn [daysUntil_of mbind option_bind urgencyLevel_of]. fold d.
    by rewrite (bool_decide_ext _ _ (Hle 7)), (bool_decide_ext _ _ (Hle 30)). }
  split; [exact Hle|]. split; [|split; [exact Hurgency|]].
  - intros k [Hlo Hhi]. apply Hle in Hhi.
    assert (¬ d ≤ k) by (rewrite Hle; lia). lia.
  - intros Hpast. split; [apply Hle; lia|].
    rewrite Hurgency, bool_decide_eq_true_2; [done|]. unfold ms_per_day. lia.
Qed.

(** X11 on a deadline one millisecond more than seven days ahead. *)
Lemma X11_urgency_to_the_millisecond_witness :
  ceil_days (7 * ms_per_day + 1 - 0) = 8 ∧
  urgencyLevel_of (daysUntil_of (Some (7 * ms_per_day + 1)) 0) = "IMPORTANT".
Proof.
  destruct (X11_urgency_to_the_millisecond (7 * ms_per_day + 1) 0)
    as (_ & Hup & Hurgency & _).
  split; [|exact Hurgency].
  apply (Hup 7). by vm_compute.
Defined.

(** X12.  The date of a deadline is not checked either.  Omitted, it is
    printed as [undefined] and counts as no date: [NaN] days, [SCHEDULED].
    A number is taken for a time in milliseconds, and [null] for the time
    0 of 1970, which is long past and therefore [URGENT]. *)
Theorem X12_dates_that_are_not_strings rt clk a r :
  callTool rt clk "monitor_deadlines" (Some a) = Ok r →
  (a !! "date" = None →
   has_line "Date: undefined" (result_text r) ∧
   has_line "Days Until: NaN" (result_text r) ∧
   has_line "Urgency: SCHEDULED" (result_text r)) ∧
  (∀ n, a !! "date" = Some (JNum n) → Z.abs n ≤ 8640000000000000 →
        has_line ("Date: " +:+ pretty n) (result_text r) ∧
        has_line ("Days Until: " +:+ pretty (ceil_days (n - clk 2%nat))) (result_text r)) ∧
  (a !! "date" = Some JNull → 0 ≤ clk 2%nat →
   has_line "Date: null" (result_text r) ∧
   has_line ("Days Until: " +:+ pretty (ceil_days (0 - clk 2%nat))) (result_text r) ∧
   has_line "Urgency: URGENT" (result_text r)).
Proof.
  intros Hcall. rewrite callTool_wrap, dispatch_monitor_deadlines in Hcall.
  apply wrap_error_Ok_inv in Hcall. rewrite monitorDeadlines_eq in Hcall.
  inv_bind. subst. cbn [result_text text_result content text].
  rewrite deadline_template_lines.
  split; [|split].
  - intros Hk. unfold get in *. rewrite Hk in *.
    cbn [from_option id date_of ToString] in *. simplify_eq.
    cbn [daysUntil_of mbind option_bind number_string urgencyLevel_of].
    repeat split; find_line.
  - intros n Hk Hn. unfold get in *. rewrite Hk in *.
    cbn [from_option id date_of ToString] in *. simplify_eq.
    unfold time_clip. rewrite bool_decide_eq_true_2 by done.
    cbn [daysUntil_of mbind option_bind number_string].
    split; (apply has_line_concat; [set_solver|];
            by rewrite one_line_app, one_line_pretty).
  - intros Hk Hnow. unfold get in *. rewrite Hk in *.
    cbn [from_option id date_of ToString] in *. simplify_eq.
    cbn [daysUntil_of mbind option_bind number_string].
    assert (urgencyLevel_of (Some (ceil_days (0 - clk 2%nat))) = "URGENT") as ->.
    { unfold urgencyLevel_of. rewrite bool_decide_eq_true_2; [done|].
      apply ceil_days_le. unfold ms_per_day. lia. }
    split; [find_line|]. split; [|find_line].
    apply has_line_concat; [set_solver|]. by rewrite one_line_app, one_line_pretty.
Qed.

(** X12 on a deadline whose date is [null], a second after the start of
    1970. *)
Lemma X12_dates_that_are_not_strings_witness :
  ∃ r, callTool sample_runtime (at_time 1000) "monitor_deadlines"
         (Some (<["date" := JNull]> (filing_deadline ""))) = Ok r ∧
       has_line "Date: null" (result_text r) ∧
       has_line "Days Until: 0" (result_text r) ∧
       has_line "Urgency: URGENT" (result_text r).
Proof.
  eexists. split; [reflexivity|].
  edestruct (X12_dates_that_are_not_strings sample_runtime (at_time 1000)
               (<["date" := JNull]> (filing_deadline ""))) as (_ & _ & Hnull);
    [reflexivity|].
  apply Hnull; [reflexivity|by vm_compute].
Defined.

(** *** Witnesses and descriptions *)

(** X13.  Witnesses given as anything but a list, a single name in a
    string for one, are not taken for one witness: [join] is missing on
    them, and the call fails with an internal error that says so.  Only
    [null] passes for no witnesses. *)
Theorem X13_witnesses_that_are_not_a_list rt clk args v :
  arg args "witnesses" = Some v →
  (∀ k, k ∈ [ "id"; "incident_date"; "bias_type"; "impact"; "description" ] →
        printable (field args k) = true) →
  (match v with
   | JBool _ | JNum _ | JStr _ | JObj _ => True
   | JUndefined | JNull | JArr _ => False
   end →
   callTool rt clk "document_judicial_bias" args =
     Err (newMcpError rt InternalError
            ("Error executing document_judicial_bias: " +:+
             type_error_message rt (NotAFunction "incident.witnesses?.join")))) ∧
  (v = JNull →
   ∃ r, callTool rt clk "document_judicial_bias" args = Ok r ∧
        has_line "Witnesses: None specified" (result_text r)).
Proof.
  intros Hw Hfields.
  rewrite callTool_wrap, dispatch_document_judicial_bias, documentJudicialBias_eq.
  assert (∃ s, ToString (default (JStr ("bias_incident_" +:+ pretty (clk 0%nat)))
                           (arg args "id")) = Ok s) as [printed ->].
  { apply printable_ok. specialize (Hfields "id"). unfold field in Hfields.
    destruct (arg args "id"); [|done]. apply Hfields. set_solver. }
  cbn [mbind result_bind].
  destruct (printable_ok _ (Hfields "incident_date" ltac:(set_solver))) as [date ->].
  destruct (printable_ok _ (Hfields "bias_type" ltac:(set_solver))) as [ty ->].
  destruct (printable_ok _ (Hfields "impact" ltac:(set_solver))) as [impact ->].
  destruct (printable_ok _ (Hfields "description" ltac:(set_solver))) as [desc ->].
  cbn [mbind result_bind]. unfold field. rewrite Hw. cbn [from_option id].
  split.
  - by destruct v.
  - intros ->. cbn [witnesses_text mbind result_bind wrap_error].
    eexists. split; [reflexivity|].
    cbn [result_text text_result content text]. rewrite incident_template_lines.
    find_line.
Qed.

(** X13 on a report whose witnesses are one name in a string. *)
Lemma X13_witnesses_that_are_not_a_list_witness :
  callTool sample_runtime (at_time 0) "document_judicial_bias"
    (Some (bias_report (Some (JStr "A. Kealoha")))) =
  Err {| code := InternalError;
         message := "MCP error -32603: Error executing document_judicial_bias: incident.witnesses?.join is not a function" |}.
Proof.
  edestruct (X13_witnesses_that_are_not_a_list sample_runtime (at_time 0)
               (Some (bias_report (Some (JStr "A. Kealoha")))) (JStr "A. Kealoha"))
    as [Hfail _].
  - reflexivity.
  - intros k Hk.
    repeat (apply elem_of_cons in Hk as [->|Hk]); [..|by apply elem_of_nil in Hk];
      reflexivity.
  - by apply Hfail.
Defined.

Lemma lines_concat_elem l piece pieces :
  piece ∈ pieces → l ∈ lines piece → l ∈ lines (String.concat nl pieces).
Proof.
  intros Hin Hl. induction pieces as [|x [|y rest] IH].
  - by apply elem_of_nil in Hin.
  - by apply list_elem_of_singleton in Hin as ->.
  - rewrite lines_concat_cons. apply elem_of_app.
    apply elem_of_cons in Hin as [->|Hin]; [by left|]. right. by apply IH.
Qed.

(** X14.  A description is put into the text as it is, line feeds
    included: what follows a line feed in it becomes a line of the text of
    its own, and reads like a field of the report when it is written like
    one. *)
Theorem X14_line_feeds_are_not_escaped rt clk tool args first l r :
  tool ∈ [ "track_evidence"; "monitor_deadlines"; "document_judicial_bias" ] →
  arg args "description" = Some (JStr (first +:+ nl +:+ l)) →
  one_line l = true →
  callTool rt clk tool args = Ok r →
  has_line l (result_text r).
Proof.
  intros Hin Hk Hl Hcall.
  repeat (apply elem_of_cons in Hin as [->|Hin]); [..|by apply elem_of_nil in Hin];
    open_call Hcall args; read_field Hk;
    (eapply (lines_concat_elem _ ("Description: " +:+ first +:+ nl +:+ l));
     [set_solver|];
     rewrite <- string_app_assoc, lines_app_nl, (lines_one_line l Hl);
     set_solver).
Qed.

(** X14 on evidence whose description ends in a line that reads like a
    relevance. *)
Lemma X14_line_feeds_are_not_escaped_witness :
  ∃ r, callTool sample_runtime (at_time 0) "track_evidence"
         (Some (<["description" := JStr ("court filing" +:+ nl +:+ "Relevance: critical")]>
                  court_filing)) = Ok r ∧
       has_line "Relevance: critical" (result_text r) ∧
       has_line "Relevance: Not specified" (result_text r).
Proof.
  eexists. split; [reflexivity|]. split; [|decide_closed].
  apply (X14_line_feeds_are_not_escaped sample_runtime (at_time 0) "track_evidence"
           (Some (<["description" :=
                      JStr ("court filing" +:+ nl +:+ "Relevance: critical")]>
                    court_filing))
           "court filing" "Relevance: critical").
  - decide_closed.
  - reflexivity.
  - reflexivity.
  - reflexivity.
Defined.


(** *** The descriptors *)

(** X15.  Every descriptor of the registry is well formed: an object
    schema whose required fields are declared properties, with no property
    and no required field listed twice and no enumeration empty or
    repeating a value; and no two descriptors share a name. *)
Theorem X15_descriptors_are_well_formed :
  Forall well_formed_schema listTools ∧ NoDup (name <$> listTools).
Proof. split; decide_closed. Qed.
